(** * StockSageBot: the tabular Q-learning policy of [app.py]

    A shallow embedding of the reinforcement-learning fragment of [app.py]
    ([get_state], [choose_action], [update_q] and the reward expression of
    the two callers) together with the properties the specification states
    about it.

    Python floats and numpy's [float64] scalars are IEEE 754 binary64
    numbers; they are modelled bit for bit by [spec_float] at precision 53
    and maximal exponent 1024, with round-to-nearest-even arithmetic.  Dictionaries are insertion-ordered
    association lists, the module globals [q_table] and the generator of
    [random] form an explicit world that every function threads, and Python
    exceptions are results of the monad. *)

From Stdlib Require Import ZArith List Bool Lia SpecFloat.
Import ListNotations.

Local Open Scope Z_scope.

(** ** Binary64 arithmetic *)

Module Binary64.

Definition float := spec_float.

Definition prec : Z := 53.
Definition emax : Z := 1024.

Definition fadd : float -> float -> float := SFadd prec emax.
Definition fsub : float -> float -> float := SFsub prec emax.
Definition fmul : float -> float -> float := SFmul prec emax.
Definition fdiv : float -> float -> float := SFdiv prec emax.
Definition fneg : float -> float := SFopp.

(** The comparisons [x < y], [x > y] and [x == y] of Python floats. *)
Definition flt : float -> float -> bool := SFltb.
Definition fgt (x y : float) : bool := SFltb y x.
Definition feq : float -> float -> bool := SFeqb.
Definition fle : float -> float -> bool := SFleb.

(** Conversion of a Python [int] to a float ([float(z)]), exact below 2^53. *)
Definition of_Z (z : Z) : float := binary_normalize prec emax z 0 false.

(** The float denoted by the decimal literal [n * 10^-d], as the Python
    parser reads it: the binary64 number nearest to the decimal value. *)
Definition literal (n : Z) (d : nat) : float :=
  fdiv (of_Z n) (of_Z (10 ^ Z.of_nat d)).

Definition zero : float := S754_zero false.
Definition one : float := of_Z 1.

Definition is_nan (x : float) : bool :=
  match x with S754_nan => true | _ => false end.

Definition is_zero (x : float) : bool :=
  match x with S754_zero _ => true | _ => false end.

(** [math.isfinite]. *)
Definition is_finite (x : float) : bool :=
  match x with S754_zero _ | S754_finite _ _ _ => true | _ => false end.

(** A float that is not below zero: [x < 0] is false. *)
Definition not_negative (x : float) : bool := negb (flt x zero).

(** Nearest integer to [num * 2^e] for [num >= 0], ties to the even one. *)
Definition round_half_even (num e : Z) : Z :=
  match e with
  | Zneg p =>
      let d := Z.pow_pos 2 p in
      let q := num / d in
      let r := num mod d in
      match 2 * r ?= d with
      | Lt => q
      | Gt => q + 1
      | Eq => if Z.even q then q else q + 1
      end
  | _ => num * 2 ^ e
  end.

(** The builtin [round(x, ndigits)] on a float, for [ndigits >= 0]: the
    exact binary value is rounded to [ndigits] decimal places, ties to
    even, and the decimal result is read back as the nearest binary64
    number.  Infinities and NaN round to themselves; the sign of a result
    that rounds to zero is kept. *)
Definition py_round (x : float) (ndigits : nat) : float :=
  match x with
  | S754_finite s m e =>
      let scale := 10 ^ Z.of_nat ndigits in
      match round_half_even (Zpos m * scale) e with
      | Zpos k => fdiv (S754_finite s k 0) (of_Z scale)
      | _ => S754_zero s
      end
  | _ => x
  end.

(** [numpy.rint] of a float: the nearest integer, ties to the even one, with
    the sign kept; a float with no fractional bits, an infinity and NaN are
    returned as they are. *)
Definition rint (x : float) : float :=
  match x with
  | S754_finite s m (Zneg p) =>
      match round_half_even (Zpos m) (Zneg p) with
      | Zpos k => binary_normalize prec emax (if s then Zneg k else Zpos k) 0 false
      | _ => S754_zero s
      end
  | _ => x
  end.

(** [round(x, decimals)] on a [numpy.float64] scalar, for [decimals > 0]:
    numpy scales by the power of ten, rounds to an integer and scales back,
    each step in binary64 ([rint(x * 10**decimals) / 10**decimals]). *)
Definition np_round (x : float) (decimals : nat) : float :=
  fdiv (rint (fmul x (of_Z (10 ^ Z.of_nat decimals))))
       (of_Z (10 ^ Z.of_nat decimals)).

End Binary64.

Import Binary64.

(** ** Exceptions and results *)

Inductive exn : Type :=
| KeyError
| ValueError
| TypeError
| IndexError.

Inductive result (A : Type) : Type :=
| Ok (a : A)
| Raise (e : exn).

Arguments Ok {A} a.
Arguments Raise {A} e.

(** ** Dictionaries: association lists in insertion order *)

Module PyDict.

Section Dict.
Context {K V : Type}.
Variable keq : K -> K -> bool.

(** [d.get(k)]: the value stored under the first key equal to [k]. *)
Fixpoint get (k : K) (d : list (K * V)) : option V :=
  match d with
  | [] => None
  | (k', v) :: d' => if keq k' k then Some v else get k d'
  end.

(** [k in d]. *)
Definition contains (k : K) (d : list (K * V)) : bool :=
  match get k d with Some _ => true | None => false end.

(** [d[k]], raising [KeyError] on a missing key. *)
Definition getitem (k : K) (d : list (K * V)) : result V :=
  match get k d with Some v => Ok v | None => Raise KeyError end.

(** [d[k] = v]: an existing key keeps its place (and the stored key
    object), a new key goes last. *)
Fixpoint set (k : K) (v : V) (d : list (K * V)) : list (K * V) :=
  match d with
  | [] => [(k, v)]
  | (k', v') :: d' =>
      if keq k' k then (k', v) :: d' else (k', v') :: set k v d'
  end.

Definition keys (d : list (K * V)) : list K := map fst d.
Definition values (d : list (K * V)) : list V := map snd d.
End Dict.

End PyDict.

(** ** The builtin [max] *)

Section PyMax.
Context {A B : Type}.
Variable key : A -> B.
Variable gt : B -> B -> result bool.

(** The loop of [max(iterable, key=...)]: an item replaces the current
    maximum only when its key is strictly greater. *)
Fixpoint max_loop (l : list A) (maxitem : A) (maxval : B) : result A :=
  match l with
  | [] => Ok maxitem
  | item :: l' =>
      match gt (key item) maxval with
      | Ok true => max_loop l' item (key item)
      | Ok false => max_loop l' maxitem maxval
      | Raise e => Raise e
      end
  end.

(** [max] of an empty sequence raises [ValueError]. *)
Definition py_max (l : list A) : result A :=
  match l with
  | [] => Raise ValueError
  | item :: l' => max_loop l' item (key item)
  end.
End PyMax.

(** [v > w] on floats. *)
Definition float_gt (v w : float) : result bool := Ok (fgt v w).

(** [v > w] where either side may be [None] (the result of [dict.get] on a
    missing key): comparing [None] raises [TypeError]. *)
Definition object_gt (v w : option float) : result bool :=
  match v, w with
  | Some x, Some y => Ok (fgt x y)
  | _, _ => Raise TypeError
  end.

(** ** Data model *)

Inductive Action : Type := Buy | Sell | Hold.

Definition action_eqb (a b : Action) : bool :=
  match a, b with
  | Buy, Buy | Sell, Sell | Hold, Hold => true
  | _, _ => false
  end.

(** [actions = ['Buy', 'Sell', 'Hold']] *)
Definition actions : list Action := [Buy; Sell; Hold].

(** A state key is the tuple built by [get_state]; tuples compare
    component-wise with [==], so [0.0] and [-0.0] denote the same key and a
    key holding NaN equals no stored key.  (A dictionary also finds a key
    that is the very same object; that only matters for keys holding NaN,
    which the properties below exclude with [state_ok].) *)
Definition State : Type := float * float.

Definition state_eqb (s t : State) : bool :=
  feq (fst s) (fst t) && feq (snd s) (snd t).

Definition Row : Type := list (Action * float).
Definition Table : Type := list (State * Row).

(** The module constants [alpha], [gamma] and [epsilon]. *)
Record Config : Type := {
  alpha : float;
  gamma : float;
  epsilon : float
}.

Definition default_config : Config :=
  {| alpha := literal 1 1; gamma := literal 9 1; epsilon := literal 2 1 |}.

(** ** The world: the global table and the generator of [random] *)

(** The generator is the sequence of raw words it will produce and a
    cursor into it. *)
Record Gen : Type := {
  entropy : nat -> Z;
  cursor : nat
}.

Record World : Type := {
  q_table : Table;
  gen : Gen
}.

Definition M (A : Type) : Type := World -> result A * World.

Definition ret {A : Type} (a : A) : M A := fun w => (Ok a, w).

Definition bind {A B : Type} (m : M A) (f : A -> M B) : M B :=
  fun w =>
    match m w with
    | (Ok a, w') => f a w'
    | (Raise e, w') => (Raise e, w')
    end.

Definition lift {A : Type} (r : result A) : M A := fun w => (r, w).

Notation "x <- m ;; f" := (bind m (fun x => f))
  (at level 61, m at next level, right associativity).
Notation "m ;; f" := (bind m (fun _ => f))
  (at level 61, right associativity).

Definition read_table : M Table := fun w => (Ok (q_table w), w).

Definition write_table (t : Table) : M unit :=
  fun w => (Ok tt, {| q_table := t; gen := gen w |}).

(** The next raw word of the generator. *)
Definition next_word : M Z :=
  fun w =>
    let g := gen w in
    (Ok (entropy g (cursor g)),
     {| q_table := q_table w;
        gen := {| entropy := entropy g; cursor := S (cursor g) |} |}).

(** [random.random()]: a 53-bit integer scaled by 2^-53, in [0, 1). *)
Definition random_random : M float :=
  k <- next_word ;;
  ret (binary_normalize prec emax (k mod 2 ^ 53) (-53) false).

(** [random.uniform(a, b)] is [a + (b - a) * random()]. *)
Definition random_uniform (a b : float) : M float :=
  r <- random_random ;;
  ret (fadd a (fmul (fsub b a) r)).

(** [random.choice(seq)] is [seq[i]] for an index [i] below [len(seq)]
    drawn from the generator; an empty sequence raises [IndexError]. *)
Definition random_choice {A : Type} (seq : list A) : M A :=
  match seq with
  | [] => lift (Raise IndexError)
  | x :: _ =>
      k <- next_word ;;
      ret (nth (Z.to_nat (k mod Z.of_nat (length seq))) seq x)
  end.

(** ** The program *)

(** [state in q_table] *)
Definition table_contains (state : State) : M bool :=
  t <- read_table ;;
  ret (PyDict.contains state_eqb state t).

(** [q_table[state]] *)
Definition table_getitem (state : State) : M Row :=
  t <- read_table ;;
  lift (PyDict.getitem state_eqb state t).

(** [q_table[state] = row] *)
Definition table_setitem (state : State) (row : Row) : M unit :=
  t <- read_table ;;
  write_table (PyDict.set state_eqb state row t).

(** A number as the program meets it: a builtin [float] (an [int] is taken
    at its float value), or a [numpy.float64] scalar, which is what a value
    computed from the price data frame is.  Both hold a binary64 value and
    do the same arithmetic and comparisons; they differ in [round]. *)
Inductive Number : Type :=
| Builtin (x : float)
| Numpy (x : float).

Definition value (n : Number) : float :=
  match n with Builtin x => x | Numpy x => x end.

(** [-n] *)
Definition negate (n : Number) : Number :=
  match n with Builtin x => Builtin (fneg x) | Numpy x => Numpy (fneg x) end.

(** The builtin [round(n, ndigits)], which calls the [__round__] of its
    argument's type. *)
Definition builtin_round (n : Number) (ndigits : nat) : float :=
  match n with
  | Builtin x => py_round x ndigits
  | Numpy x => np_round x ndigits
  end.

(** [def get_state(score, price_change)] *)
Definition get_state (score price_change : Number) : State :=
  (builtin_round score 1, builtin_round price_change 2).

(** [max(row, key=row.get)] *)
Definition best_action (row : Row) : result Action :=
  py_max (fun a => PyDict.get action_eqb a row) object_gt
         (PyDict.keys row).

(** [def choose_action(state)] *)
Definition choose_action (cfg : Config) (state : State) : M Action :=
  u <- random_uniform (of_Z 0) (of_Z 1) ;;
  explore <- (if flt u (epsilon cfg) then ret true
              else present <- table_contains state ;; ret (negb present)) ;;
  if explore : bool then
    random_choice actions
  else
    row <- table_getitem state ;;
    lift (best_action row).

(** [{a: 0 for a in actions}] *)
Definition fresh_row : Row := map (fun a => (a, of_Z 0)) actions.

(** The new estimate [old + alpha * (reward + gamma * future - old)]. *)
Definition td_update (cfg : Config) (old reward future : float) : float :=
  fadd old
       (fmul (alpha cfg)
             (fsub (fadd reward (fmul (gamma cfg) future)) old)).

(** [def update_q(state, action, reward)] *)
Definition update_q (cfg : Config) (state : State) (action : Action)
    (reward : float) : M unit :=
  present <- table_contains state ;;
  (if negb present then table_setitem state fresh_row else ret tt) ;;
  row <- table_getitem state ;;
  old <- lift (PyDict.getitem action_eqb action row) ;;
  row <- table_getitem state ;;
  future <- lift (py_max (fun v => v) float_gt (PyDict.values row)) ;;
  row <- table_getitem state ;;
  table_setitem state
    (PyDict.set action_eqb action (td_update cfg old reward future) row).

(** [price_change if action == 'Buy' else -price_change if action == 'Sell'
    else 0] *)
Definition reward_of (action : Action) (price_change : float) : float :=
  if action_eqb action Buy then price_change
  else if action_eqb action Sell then fneg price_change
  else of_Z 0.

(** The block shared by [analyze_sentiment] and [handle_chat]: encode the
    state, choose, compute the reward, learn. *)
Definition suggest (cfg : Config) (sentiment_score price_change : Number)
    : M Action :=
  let current_state := get_state sentiment_score price_change in
  action <- choose_action cfg current_state ;;
  let reward := reward_of action (value price_change) in
  update_q cfg current_state action reward ;;
  ret action.

(** [analyze_sentiment], from the sentiment score the analyzer returned (a
    builtin float) and the price change it found: the [numpy.float64]
    quotient [(close - open) / open] of the matching row, or the builtin
    [0] when there is none. *)
Definition analyze_sentiment (cfg : Config) (sentiment_score : float)
    (price_change : Number) : M Action :=
  suggest cfg (Builtin sentiment_score) price_change.

(** [handle_chat], from the sentiment score of the message: the price
    change is simulated by [random.uniform(-0.05, 0.05)], a builtin
    float. *)
Definition handle_chat (cfg : Config) (sentiment_score : float) : M Action :=
  price_change <- random_uniform (fneg (literal 5 2)) (literal 5 2) ;;
  suggest cfg (Builtin sentiment_score) (Builtin price_change).

(** Running a sequence of [update_q] calls. *)
Fixpoint update_all (cfg : Config) (calls : list (State * Action * float))
    : M unit :=
  match calls with
  | [] => ret tt
  | (state, action, reward) :: rest =>
      update_q cfg state action reward ;; update_all cfg rest
  end.

(** ** Notions the properties are stated with *)

(** A key that equals itself: neither component is NaN. *)
Definition state_ok (s : State) : bool :=
  negb (is_nan (fst s)) && negb (is_nan (snd s)).

Fixpoint actions_eqb (l l' : list Action) : bool :=
  match l, l' with
  | [], [] => true
  | a :: k, a' :: k' => action_eqb a a' && actions_eqb k k'
  | _, _ => false
  end.

(** A row with exactly the three entries Buy, Sell, Hold, in that order. *)
Definition row_complete (row : Row) : bool :=
  actions_eqb (PyDict.keys row) actions.

(** Every row of the table is complete. *)
Definition table_complete (t : Table) : bool :=
  forallb (fun entry => row_complete (snd entry)) t.

(** The row [update_q] works on: the stored one, or the fresh one it
    inserts. *)
Definition row_of (t : Table) (s : State) : Row :=
  match PyDict.get state_eqb s t with
  | Some row => row
  | None => fresh_row
  end.

(** [t[s][a]] when both keys are present. *)
Definition table_value (t : Table) (s : State) (a : Action) : option float :=
  match PyDict.get state_eqb s t with
  | Some row => PyDict.get action_eqb a row
  | None => None
  end.

Definition no_nan (l : list float) : bool := forallb (fun v => negb (is_nan v)) l.

Definition all_zero (l : list float) : bool := forallb is_zero l.

(** The same float, or two zeros (which [==] does not tell apart). *)
Definition same_number (x y : float) : Prop :=
  x = y \/ (is_zero x = true /\ is_zero y = true).

(** A number that is zero or above: not NaN and with a clear sign bit. *)
Definition plus (x : float) : bool :=
  match x with
  | S754_zero false | S754_infinity false | S754_finite false _ _ => true
  | _ => false
  end.

(** The position of an action in [actions]. *)
Definition rank (a : Action) : nat :=
  match a with Buy => 0 | Sell => 1 | Hold => 2 end.

(** The world after one word of the generator has been consumed. *)
Definition advance (w : World) : World :=
  {| q_table := q_table w;
     gen := {| entropy := entropy (gen w); cursor := S (cursor (gen w)) |} |}.

(** The word the generator yields next. *)
Definition word (w : World) : Z := entropy (gen w) (cursor (gen w)).

(** The value [random.uniform(0, 1)] returns in world [w]. *)
Definition draw (w : World) : float :=
  fadd (of_Z 0)
       (fmul (fsub (of_Z 1) (of_Z 0))
             (binary_normalize prec emax (word w mod 2 ^ 53) (-53) false)).

(** The action [random.choice(actions)] returns in world [w]. *)
Definition pick (w : World) : Action :=
  nth (Z.to_nat (word w mod 3)) actions Buy.

(** [row[a]] and [max(row.values())] as plain values (NaN where the program
    raises). *)
Definition row_value (row : Row) (a : Action) : float :=
  match PyDict.get action_eqb a row with Some v => v | None => S754_nan end.

Definition future_of (row : Row) : float :=
  match py_max (fun v => v) float_gt (PyDict.values row) with
  | Ok v => v
  | Raise _ => S754_nan
  end.

(** The table [update_q] leaves behind. *)
Definition updated_row (cfg : Config) (row : Row) (a : Action) (r : float)
    : Row :=
  PyDict.set action_eqb a
    (td_update cfg (row_value row a) r (future_of row)) row.

Definition updated_table (cfg : Config) (t : Table) (s : State)
    (a : Action) (r : float) : Table :=
  PyDict.set state_eqb s (updated_row cfg (row_of t s) a r) t.

(** The temporal-difference term [reward + gamma * future - old] of a call
    on table [t]. *)
Definition td_error (cfg : Config) (t : Table) (s : State) (a : Action)
    (r : float) : float :=
  fsub (fadd r (fmul (gamma cfg) (future_of (row_of t s))))
       (row_value (row_of t s) a).

(** Every call of a sequence has a valid key and a finite
    temporal-difference term on the table it meets. *)
Fixpoint calls_finite (cfg : Config) (t : Table)
    (calls : list (State * Action * float)) : bool :=
  match calls with
  | [] => true
  | (s, a, r) :: rest =>
      state_ok s && is_finite (td_error cfg t s a r)
      && calls_finite cfg (updated_table cfg t s a r) rest
  end.

Definition empty_world (g : Gen) : World := {| q_table := []; gen := g |}.

(** A generator for examples: a linear congruential sequence. *)
Definition example_gen : Gen :=
  {| entropy := fun n => (6364136223846793005 * Z.of_nat n + 1442695040888963407) mod 2 ^ 64;
     cursor := 0 |}.

(** A state and a world for examples: one learned row, Buy and Sell tied
    above Hold. *)
Definition example_state : State := (literal 4 1, literal 1 2).

Definition example_world : World :=
  {| q_table :=
       [(example_state,
         [(Buy, literal 5 1); (Sell, literal 5 1); (Hold, literal 25 2)])];
     gen := example_gen |}.

(** The configuration with exploration switched off. *)
Definition greedy_config : Config :=
  {| alpha := literal 1 1; gamma := literal 9 1; epsilon := of_Z 0 |}.

(** The configuration with a zero learning rate. *)
Definition frozen_config : Config :=
  {| alpha := of_Z 0; gamma := literal 9 1; epsilon := literal 2 1 |}.

(** The table a sequence of [update_q] calls leaves behind. *)
Fixpoint table_after (cfg : Config) (t : Table)
    (calls : list (State * Action * float)) : Table :=
  match calls with
  | [] => t
  | (s, a, r) :: rest => table_after cfg (updated_table cfg t s a r) rest
  end.

(** A finite float near the top of the binary64 range (1.7e308), and a
    world whose one row holds it. *)
Definition huge : float := of_Z (17 * 10 ^ 307).

Definition huge_world : World :=
  {| q_table := [(example_state, [(Buy, huge); (Sell, zero); (Hold, zero)])];
     gen := example_gen |}.

(** ** Decimal rounding, stated on integers *)

(** [k] is the integer nearest to the fraction [num / den]; of two
    integers equally near it is the even one. *)
Definition nearest_even (num den k : Z) : Prop :=
  Z.abs (2 * num - 2 * k * den) <= den /\
  (Z.abs (2 * num - 2 * k * den) = den -> Z.even k = true).

(** The magnitude of the finite float of mantissa [m] and exponent [e] is
    exactly [exact_num m e / exact_den e]. *)
Definition exact_num (m : positive) (e : Z) : Z := Zpos m * 2 ^ Z.max e 0.
Definition exact_den (e : Z) : Z := 2 ^ Z.max (- e) 0.

(** The binary64 number nearest to the decimal fraction [k / 10^n], with
    the sign [s]. *)
Definition decimal (s : bool) (k : Z) (n : nat) : float :=
  match k with
  | Zpos p => fdiv (S754_finite s p 0) (of_Z (10 ^ Z.of_nat n))
  | _ => S754_zero s
  end.

(** The float of the integer [k] with the sign [s]. *)
Definition integer (s : bool) (k : Z) : float :=
  match k with
  | Zpos p => of_Z (if s then Zneg p else Zpos p)
  | _ => S754_zero s
  end.

(** Configurations with an infinite learning rate or discount factor. *)
Definition runaway_alpha_config : Config :=
  {| alpha := S754_infinity false; gamma := literal 9 1;
     epsilon := literal 2 1 |}.

Definition runaway_gamma_config : Config :=
  {| alpha := literal 1 1; gamma := S754_infinity false;
     epsilon := literal 2 1 |}.

(** ** The sentiment label and the request loop *)

Inductive Sentiment : Type := Positive | Negative | Neutral.

(** [x >= y] on floats. *)
Definition fge (x y : float) : bool := SFleb y x.

(** [def classify_sentiment(score)] *)
Definition classify_sentiment (score : float) : Sentiment :=
  if fge score (literal 5 2) then Positive
  else if fle score (fneg (literal 5 2)) then Negative
  else Neutral.

(** The label of the opposite mood. *)
Definition mirror (label : Sentiment) : Sentiment :=
  match label with
  | Positive => Negative
  | Negative => Positive
  | Neutral => Neutral
  end.

(** Labels ordered from Negative to Positive. *)
Definition polarity (label : Sentiment) : Z :=
  match label with
  | Negative => -1
  | Neutral => 0
  | Positive => 1
  end.

(** A press of one of the two buttons, with the sentiment score the
    analyzer gave the text (and, for the analysis form, the price change
    found for the symbol). *)
Inductive Request : Type :=
| Analyze (sentiment_score : float) (price_change : Number)
| Chat (sentiment_score : float).

Definition request_ok (q : Request) : bool :=
  match q with
  | Analyze score price_change =>
      negb (is_nan score) && negb (is_nan (value price_change))
  | Chat score => negb (is_nan score)
  end.

(** The event loop serving a sequence of requests, collecting the
    suggested actions. *)
Fixpoint serve (cfg : Config) (requests : list Request) : M (list Action) :=
  match requests with
  | [] => ret []
  | Analyze score price_change :: rest =>
      a <- analyze_sentiment cfg score price_change ;;
      l <- serve cfg rest ;;
      ret (a :: l)
  | Chat score :: rest =>
      a <- handle_chat cfg score ;;
      l <- serve cfg rest ;;
      ret (a :: l)
  end.

(** Every call of a sequence is on a key without NaN. *)
Definition calls_ok (calls : list (State * Action * float)) : bool :=
  forallb (fun call => state_ok (fst (fst call))) calls.

(** A world whose one row has lost the estimate of Buy to NaN. *)
Definition poisoned_world : World :=
  {| q_table :=
       [(example_state,
         [(Buy, S754_nan); (Sell, literal 5 1); (Hold, literal 25 2)])];
     gen := example_gen |}.

(** * Facts about binary64 comparison and arithmetic *)

Module Binary64Facts.

Lemma compare_cont_Eq (m n : positive) : Pos.compare_cont Eq m n = (m ?= n)%positive.
Proof. reflexivity. Qed.

Ltac cmp_cases :=
  repeat match goal with
  | H : context [Pos.compare_cont Eq ?m ?n] |- _ =>
      rewrite (compare_cont_Eq m n) in H
  | |- context [Pos.compare_cont Eq ?m ?n] =>
      rewrite (compare_cont_Eq m n)
  end;
  repeat match goal with
  | H : context [(?a ?= ?b)%Z] |- _ =>
      destruct (Z.compare_spec a b); simpl in H
  | H : context [(?a ?= ?b)%positive] |- _ =>
      destruct (Pos.compare_spec a b); simpl in H
  | |- context [(?a ?= ?b)%Z] =>
      destruct (Z.compare_spec a b); simpl
  | |- context [(?a ?= ?b)%positive] =>
      destruct (Pos.compare_spec a b); simpl
  end.

Lemma feq_spec (x y : float) :
  feq x y = true <->
  is_nan x = false /\ is_nan y = false /\
  (x = y \/ (is_zero x = true /\ is_zero y = true)).
Proof.
  unfold feq, SFeqb, SFcompare.
  destruct x as [s1| s1| |s1 m1 e1], y as [s2| s2| |s2 m2 e2];
    try destruct s1; try destruct s2; simpl; split; intro H;
    try discriminate; try reflexivity;
    try (destruct H as (? & ? & [?|[? ?]]); discriminate);
    try (repeat split; auto; fail).
  all: try (cmp_cases; try discriminate; subst; repeat split; left; reflexivity).
  all: destruct H as (_ & _ & [E|[? _]]); [|discriminate];
       injection E as -> ->; rewrite Z.compare_refl;
       rewrite compare_cont_Eq, Pos.compare_refl; reflexivity.
Qed.

Lemma feq_refl (x : float) : is_nan x = false -> feq x x = true.
Proof. intro H. apply feq_spec. auto. Qed.

Lemma feq_sym (x y : float) : feq x y = feq y x.
Proof.
  destruct (feq x y) eqn:E, (feq y x) eqn:E'; try reflexivity.
  - apply feq_spec in E. destruct E as (? & ? & [?|[? ?]]).
    + subst. rewrite feq_refl in E' by assumption. discriminate.
    + assert (feq y x = true) by (apply feq_spec; auto). congruence.
  - apply feq_spec in E'. destruct E' as (? & ? & [?|[? ?]]).
    + subst. rewrite feq_refl in E by assumption. discriminate.
    + assert (feq x y = true) by (apply feq_spec; auto). congruence.
Qed.

Lemma feq_trans (x y z : float) :
  feq x y = true -> feq y z = true -> feq x z = true.
Proof.
  rewrite !feq_spec. intros (Hx & Hy & Hxy) (_ & Hz & Hyz).
  repeat split; try assumption.
  destruct Hxy as [->|[? ?]], Hyz as [E|[? ?]]; auto.
  subst z. auto.
Qed.

Lemma flt_nan_l (x : float) : flt S754_nan x = false.
Proof. reflexivity. Qed.

Lemma flt_nan_r (x : float) : flt x S754_nan = false.
Proof. destruct x; reflexivity. Qed.

Lemma flt_irrefl (x : float) : flt x x = false.
Proof.
  unfold flt, SFltb, SFcompare.
  destruct x as [s| s| |s m e]; try destruct s; try reflexivity.
  all: rewrite Z.compare_refl, compare_cont_Eq, Pos.compare_refl; reflexivity.
Qed.

Lemma flt_trans (x y z : float) :
  flt x y = true -> flt y z = true -> flt x z = true.
Proof.
  unfold flt, SFltb, SFcompare.
  destruct x as [s1| s1| |s1 m1 e1], y as [s2| s2| |s2 m2 e2],
           z as [s3| s3| |s3 m3 e3];
    try destruct s1; try destruct s2; try destruct s3; simpl;
    try discriminate; try reflexivity; intros H1 H2.
  all: cmp_cases; try discriminate; try reflexivity; subst; exfalso; lia.
Qed.

Lemma flt_asym (x y : float) : flt x y = true -> flt y x = false.
Proof.
  intro H. destruct (flt y x) eqn:E; [|reflexivity].
  pose proof (flt_trans _ _ _ H E) as F. rewrite flt_irrefl in F. discriminate.
Qed.

(** On numbers, "not less than" is transitive: the order is total. *)
Lemma fle_trans (x y z : float) :
  is_nan x = false -> is_nan y = false -> is_nan z = false ->
  flt y x = false -> flt z y = false -> flt z x = false.
Proof.
  unfold flt, SFltb, SFcompare.
  destruct x as [s1| s1| |s1 m1 e1], y as [s2| s2| |s2 m2 e2],
           z as [s3| s3| |s3 m3 e3];
    try destruct s1; try destruct s2; try destruct s3; simpl;
    try discriminate; try reflexivity; intros _ _ _ H1 H2.
  all: cmp_cases; try discriminate; try reflexivity; subst; exfalso; lia.
Qed.

Lemma fle_total (x y : float) :
  is_nan x = false -> is_nan y = false -> flt y x = false -> fle x y = true.
Proof.
  unfold fle, SFleb, flt, SFltb, SFcompare.
  destruct x as [s1| s1| |s1 m1 e1], y as [s2| s2| |s2 m2 e2];
    try destruct s1; try destruct s2; simpl;
    try discriminate; try reflexivity; intros _ _ H.
  all: cmp_cases; try discriminate; try reflexivity; subst; exfalso; lia.
Qed.

(** Between numbers, [z <= y] and [y < x] give [z < x]. *)
Lemma fle_flt_trans (x y z : float) :
  is_nan z = false -> flt y z = false -> flt y x = true -> flt z x = true.
Proof.
  unfold flt, SFltb, SFcompare.
  destruct x as [s1| s1| |s1 m1 e1], y as [s2| s2| |s2 m2 e2],
           z as [s3| s3| |s3 m3 e3];
    try destruct s1; try destruct s2; try destruct s3; simpl;
    try discriminate; try reflexivity; intros _ H1 H2.
  all: cmp_cases; try discriminate; try reflexivity; subst; exfalso; lia.
Qed.

Lemma feq_not_flt (x y : float) : feq x y = true -> flt x y = false.
Proof.
  intro H. apply feq_spec in H. destruct H as (_ & _ & [->|[Hx Hy]]).
  - apply flt_irrefl.
  - destruct x, y; try discriminate; reflexivity.
Qed.

Lemma flt_feq_r (x y z : float) :
  flt x y = true -> feq y z = true -> flt x z = true.
Proof.
  intros L H. apply feq_spec in H. destruct H as (_ & _ & [->|[Hy Hz]]).
  - exact L.
  - destruct y as [sy| | |]; try discriminate.
    destruct z as [sz| | |]; try discriminate.
    destruct x as [sx|[|]| |[|] mx ex]; try discriminate; reflexivity.
Qed.

(** *** Signs through rounding *)

Lemma shr_1_nonneg (mrs : shr_record) :
  0 <= shr_m mrs -> 0 <= shr_m (shr_1 mrs).
Proof.
  destruct mrs as [m r s]. simpl.
  destruct m as [|[p|p|]|[p|p|]]; simpl; lia.
Qed.

Lemma iter_shr_1_nonneg (p : positive) :
  forall mrs, 0 <= shr_m mrs -> 0 <= shr_m (iter_pos shr_1 p mrs).
Proof.
  induction p as [p IH|p IH|]; simpl; intros mrs H.
  - apply IH, IH, shr_1_nonneg, H.
  - apply IH, IH, H.
  - apply shr_1_nonneg, H.
Qed.

Lemma shr_fexp_nonneg (m e : Z) (l : location) :
  0 <= m -> 0 <= shr_m (fst (shr_fexp prec emax m e l)).
Proof.
  intro H. unfold shr_fexp, shr.
  assert (H0 : 0 <= shr_m (shr_record_of_loc m l))
    by (destruct l as [|[| |]]; exact H).
  destruct (fexp prec emax (Zdigits2 m + e) - e) as [|p|p]; simpl;
    try exact H0.
  apply iter_shr_1_nonneg, H0.
Qed.

Lemma round_nearest_even_nonneg (m : Z) (l : location) :
  0 <= m -> 0 <= round_nearest_even m l.
Proof.
  intro H. destruct l as [|[| |]]; simpl; try lia.
  destruct (Z.even m); lia.
Qed.

Lemma binary_round_aux_number (sx : bool) (m e : Z) (l : location) :
  0 <= m -> is_nan (binary_round_aux prec emax sx m e l) = false.
Proof.
  intro H. unfold binary_round_aux.
  pose proof (shr_fexp_nonneg m e l H) as H1.
  destruct (shr_fexp prec emax m e l) as [mrs' e'] eqn:E1. simpl in H1.
  pose proof (round_nearest_even_nonneg (shr_m mrs') (loc_of_shr_record mrs') H1) as H2.
  pose proof (shr_fexp_nonneg _ e' loc_Exact H2) as H3.
  destruct (shr_fexp prec emax
              (round_nearest_even (shr_m mrs') (loc_of_shr_record mrs'))
              e' loc_Exact) as [mrs'' e''] eqn:E2.
  simpl in H3.
  destruct (shr_m mrs'') as [|p|p]; try reflexivity.
  - destruct (e'' <=? emax - prec); reflexivity.
  - lia.
Qed.

(** A quotient of two finite floats is a number. *)
Lemma fdiv_finite_number (sx sy : bool) (mx my : positive) (ex ey : Z) :
  is_nan (fdiv (S754_finite sx mx ex) (S754_finite sy my ey)) = false.
Proof.
  unfold fdiv, SFdiv, SFdiv_core_binary.
  set (e' := Z.min _ _). set (sh := ex - ey - e').
  set (m' := match sh with Z.pos _ => Z.shiftl (Z.pos mx) sh
             | 0 => Z.pos mx | Z.neg _ => 0 end).
  assert (Hm : 0 <= m').
  { unfold m'. destruct sh; try lia. apply Z.shiftl_nonneg. lia. }
  pose proof (Z.div_pos m' (Z.pos my) Hm ltac:(lia)) as Hq.
  unfold Z.div in Hq.
  destruct (Z.div_eucl m' (Z.pos my)) as [q r]. simpl in Hq.
  apply binary_round_aux_number. exact Hq.
Qed.

(** [round] of a number to one or two places is a number. *)
Lemma py_round_number (x : float) (n : nat) :
  (n = 1 \/ n = 2)%nat -> is_nan x = false -> is_nan (py_round x n) = false.
Proof.
  intros Hn Hx. destruct x as [s|s| |s m e]; try discriminate; try reflexivity.
  unfold py_round.
  destruct (round_half_even (Z.pos m * 10 ^ Z.of_nat n) e) as [|k|k];
    try reflexivity.
  destruct Hn as [-> | ->]; apply fdiv_finite_number.
Qed.

Lemma binary_round_aux_plus (m e : Z) (l : location) :
  0 <= m -> plus (binary_round_aux prec emax false m e l) = true.
Proof.
  intro H. unfold binary_round_aux.
  pose proof (shr_fexp_nonneg m e l H) as H1.
  destruct (shr_fexp prec emax m e l) as [mrs' e'] eqn:E1. simpl in H1.
  pose proof (round_nearest_even_nonneg (shr_m mrs') (loc_of_shr_record mrs') H1) as H2.
  pose proof (shr_fexp_nonneg _ e' loc_Exact H2) as H3.
  destruct (shr_fexp prec emax
              (round_nearest_even (shr_m mrs') (loc_of_shr_record mrs'))
              e' loc_Exact) as [mrs'' e''] eqn:E2.
  simpl in H3.
  destruct (shr_m mrs'') as [|p|p]; try reflexivity.
  - destruct (e'' <=? emax - prec); reflexivity.
  - lia.
Qed.

Lemma binary_normalize_plus (m e : Z) :
  0 <= m -> plus (binary_normalize prec emax m e false) = true.
Proof.
  intro H. destruct m as [|p|p]; try reflexivity; try lia.
  simpl. unfold binary_round.
  destruct (shl_align p e (fexp prec emax (Z.pos (digits2_pos p) + e)))
    as [mz ez].
  apply binary_round_aux_plus. lia.
Qed.

Lemma fmul_plus (x y : float) :
  plus x = true -> is_finite x = true -> is_zero x = false ->
  plus y = true -> plus (fmul x y) = true.
Proof.
  destruct x as [[|]| [|]| |[|] mx ex], y as [[|]| [|]| |[|] my ey];
    try discriminate; try reflexivity; intros _ _ _ _.
  apply binary_round_aux_plus. lia.
Qed.

Lemma fadd_zero_plus (y : float) :
  plus y = true -> plus (fadd zero y) = true.
Proof. destruct y as [[|]| [|]| |[|] my ey]; try discriminate; reflexivity. Qed.

Lemma plus_not_below_zero (x z : float) :
  plus x = true -> is_zero z = true -> flt x z = false.
Proof.
  destruct x as [[|]| [|]| |[|] mx ex], z as [[|]| | |]; try discriminate;
    reflexivity.
Qed.

(** *** Arithmetic on zeros *)

Lemma fmul_zero_l (a x : float) :
  is_zero a = true -> is_finite x = true -> is_zero (fmul a x) = true.
Proof. destruct a, x; try discriminate; reflexivity. Qed.

Lemma fmul_zero_r (a x : float) :
  is_finite a = true -> is_zero x = true -> is_zero (fmul a x) = true.
Proof. destruct a, x; try discriminate; reflexivity. Qed.

Lemma fadd_zeros (x y : float) :
  is_zero x = true -> is_zero y = true -> is_zero (fadd x y) = true.
Proof.
  destruct x as [[|]| | |], y as [[|]| | |]; try discriminate; reflexivity.
Qed.

Lemma fsub_zeros (x y : float) :
  is_zero x = true -> is_zero y = true -> is_zero (fsub x y) = true.
Proof.
  destruct x as [[|]| | |], y as [[|]| | |]; try discriminate; reflexivity.
Qed.

Lemma fadd_plus_zero_l (y : float) :
  is_zero y = true -> fadd zero y = zero.
Proof. destruct y as [[|]| | |]; try discriminate; reflexivity. Qed.

Lemma fadd_zero_r (x z : float) :
  is_zero z = true ->
  fadd x z = x \/ (is_zero (fadd x z) = true /\ is_zero x = true).
Proof.
  destruct x as [[|]| [|]| |[|] mx ex], z as [[|]| | |]; try discriminate;
    intros _; try (left; reflexivity); right; split; reflexivity.
Qed.

End Binary64Facts.

(** * Facts about dictionaries *)

Module PyDictFacts.

Section Facts.
Context {K V : Type}.
Variable keq : K -> K -> bool.
Hypothesis keq_sym : forall a b, keq a b = keq b a.
Hypothesis keq_trans :
  forall a b c, keq a b = true -> keq b c = true -> keq a c = true.

Lemma get_set_same (k : K) (v : V) (d : list (K * V)) :
  keq k k = true -> PyDict.get keq k (PyDict.set keq k v d) = Some v.
Proof.
  intro R. induction d as [|[k' v'] d IH]; simpl.
  - rewrite R. reflexivity.
  - destruct (keq k' k) eqn:E; simpl; rewrite E; [reflexivity | exact IH].
Qed.

Lemma get_set_other (k k2 : K) (v : V) (d : list (K * V)) :
  keq k k2 = false ->
  PyDict.get keq k2 (PyDict.set keq k v d) = PyDict.get keq k2 d.
Proof.
  intro N. induction d as [|[k' v'] d IH]; simpl.
  - rewrite N. reflexivity.
  - destruct (keq k' k) eqn:E; simpl.
    + destruct (keq k' k2) eqn:E2; [|reflexivity].
      rewrite keq_sym in E.
      rewrite (keq_trans _ _ _ E E2) in N. discriminate.
    + destruct (keq k' k2); [reflexivity | exact IH].
Qed.

Lemma get_congr (k k2 : K) (d : list (K * V)) :
  keq k k2 = true -> PyDict.get keq k d = PyDict.get keq k2 d.
Proof.
  intro E. induction d as [|[k' v'] d IH]; simpl; [reflexivity|].
  rewrite IH.
  destruct (keq k' k) eqn:A, (keq k' k2) eqn:B; try reflexivity.
  - rewrite (keq_trans _ _ _ A E) in B. discriminate.
  - rewrite keq_sym in E. rewrite (keq_trans _ _ _ B E) in A. discriminate.
Qed.

Lemma set_absent (k : K) (v : V) (d : list (K * V)) :
  PyDict.get keq k d = None -> PyDict.set keq k v d = d ++ [(k, v)].
Proof.
  induction d as [|[k' v'] d IH]; simpl; intro H; [reflexivity|].
  destruct (keq k' k); [discriminate|]. rewrite IH by exact H. reflexivity.
Qed.

Lemma set_keys_present (k : K) (v v0 : V) (d : list (K * V)) :
  PyDict.get keq k d = Some v0 ->
  PyDict.keys (PyDict.set keq k v d) = PyDict.keys d.
Proof.
  induction d as [|[k' v'] d IH]; simpl; intro H; [discriminate|].
  unfold PyDict.keys in *.
  destruct (keq k' k); simpl; [reflexivity|].
  f_equal. exact (IH H).
Qed.

Lemma set_set (k : K) (v v' : V) (d : list (K * V)) :
  keq k k = true ->
  PyDict.set keq k v' (PyDict.set keq k v d) = PyDict.set keq k v' d.
Proof.
  intro R. induction d as [|[k' v0] d IH]; simpl.
  - rewrite R. reflexivity.
  - destruct (keq k' k) eqn:E; simpl; rewrite E; [reflexivity|].
    rewrite IH. reflexivity.
Qed.

Lemma get_app_absent (k : K) (d d' : list (K * V)) :
  PyDict.get keq k d = None ->
  PyDict.get keq k (d ++ d') = PyDict.get keq k d'.
Proof.
  induction d as [|[k' v'] d IH]; simpl; intro H; [reflexivity|].
  destruct (keq k' k); [discriminate | exact (IH H)].
Qed.

Lemma get_In (k : K) (v : V) (d : list (K * V)) :
  PyDict.get keq k d = Some v -> exists k', In (k', v) d.
Proof.
  induction d as [|[k' v'] d IH]; simpl; intro H; [discriminate|].
  destruct (keq k' k).
  - injection H as ->. exists k'. left. reflexivity.
  - destruct (IH H) as [k'' I]. exists k''. right. exact I.
Qed.
End Facts.

End PyDictFacts.

Import Binary64Facts PyDictFacts.

(** * Facts about keys, rows and tables *)

Lemma action_eqb_eq (a b : Action) : action_eqb a b = true <-> a = b.
Proof. destruct a, b; simpl; split; congruence. Qed.

Lemma action_eqb_refl (a : Action) : action_eqb a a = true.
Proof. destruct a; reflexivity. Qed.

Lemma action_eqb_sym (a b : Action) : action_eqb a b = action_eqb b a.
Proof. destruct a, b; reflexivity. Qed.

Lemma action_eqb_trans (a b c : Action) :
  action_eqb a b = true -> action_eqb b c = true -> action_eqb a c = true.
Proof. rewrite !action_eqb_eq. congruence. Qed.

Lemma state_eqb_refl (s : State) : state_ok s = true -> state_eqb s s = true.
Proof.
  unfold state_ok, state_eqb. intro H.
  apply andb_true_iff in H. destruct H as [H1 H2].
  apply negb_true_iff in H1, H2.
  rewrite !feq_refl by assumption. reflexivity.
Qed.

Lemma state_eqb_sym (s t : State) : state_eqb s t = state_eqb t s.
Proof.
  unfold state_eqb.
  rewrite (feq_sym (fst s)), (feq_sym (snd s)). reflexivity.
Qed.

Lemma state_eqb_trans (s t u : State) :
  state_eqb s t = true -> state_eqb t u = true -> state_eqb s u = true.
Proof.
  unfold state_eqb. rewrite !andb_true_iff. intros [A B] [C D].
  split; eapply feq_trans; eassumption.
Qed.

Lemma actions_eqb_eq (l l' : list Action) : actions_eqb l l' = true <-> l = l'.
Proof.
  revert l'. induction l as [|a l IH]; destruct l' as [|a' l']; simpl;
    try (split; congruence).
  rewrite andb_true_iff, action_eqb_eq, IH. split.
  - intros [-> ->]. reflexivity.
  - intro E. injection E as -> ->. auto.
Qed.

(** A complete row is the list of its three entries. *)
Lemma row_complete_shape (row : Row) :
  row_complete row = true ->
  exists b s h, row = [(Buy, b); (Sell, s); (Hold, h)].
Proof.
  unfold row_complete. rewrite actions_eqb_eq. unfold PyDict.keys, actions.
  destruct row as [|[a1 b] [|[a2 s] [|[a3 h] [|? ?]]]]; simpl;
    try discriminate.
  intro E. injection E as -> -> ->. exists b, s, h. reflexivity.
Qed.

Lemma fresh_row_complete : row_complete fresh_row = true.
Proof. reflexivity. Qed.

Lemma table_complete_get (t : Table) (s : State) (row : Row) :
  table_complete t = true ->
  PyDict.get state_eqb s t = Some row -> row_complete row = true.
Proof.
  unfold table_complete. rewrite forallb_forall. intros H G.
  destruct (get_In _ _ _ _ G) as [k I]. exact (H _ I).
Qed.

Lemma row_of_complete (t : Table) (s : State) :
  table_complete t = true -> row_complete (row_of t s) = true.
Proof.
  intro H. unfold row_of.
  destruct (PyDict.get state_eqb s t) eqn:G.
  - exact (table_complete_get _ _ _ H G).
  - reflexivity.
Qed.

Lemma table_complete_set (t : Table) (s : State) (row : Row) :
  table_complete t = true -> row_complete row = true ->
  table_complete (PyDict.set state_eqb s row t) = true.
Proof.
  unfold table_complete. intros H R.
  induction t as [|[k r] t IH]; simpl in *.
  - rewrite R. reflexivity.
  - apply andb_true_iff in H. destruct H as [H1 H2].
    destruct (state_eqb k s); simpl.
    + rewrite R, H2. reflexivity.
    + rewrite H1, (IH H2). reflexivity.
Qed.

Lemma row_set_complete (row : Row) (a : Action) (v : float) :
  row_complete row = true ->
  row_complete (PyDict.set action_eqb a v row) = true.
Proof.
  intro H. destruct (row_complete_shape _ H) as (b & s & h & ->).
  destruct a; reflexivity.
Qed.

(** * What the functions compute *)

Lemma random_uniform_run (w : World) :
  random_uniform (of_Z 0) (of_Z 1) w = (Ok (draw w), advance w).
Proof. reflexivity. Qed.

Lemma random_choice_run (w : World) :
  random_choice actions w = (Ok (pick w), advance w).
Proof. reflexivity. Qed.

Lemma pick_in_actions (w : World) : In (pick w) actions.
Proof.
  unfold pick. apply nth_In.
  pose proof (Z.mod_pos_bound (word w) 3 ltac:(lia)). simpl. lia.
Qed.

(** The drawn number is never below zero. *)
Lemma draw_plus (w : World) : plus (draw w) = true.
Proof.
  unfold draw. apply fadd_zero_plus. apply fmul_plus; try reflexivity.
  apply binary_normalize_plus.
  apply Z.mod_pos_bound. reflexivity.
Qed.

Lemma choose_action_explore (cfg : Config) (s : State) (w : World) :
  flt (draw w) (epsilon cfg) = true ->
  choose_action cfg s w = (Ok (pick (advance w)), advance (advance w)).
Proof.
  intro H. unfold choose_action, bind. rewrite random_uniform_run, H.
  reflexivity.
Qed.

Lemma choose_action_absent (cfg : Config) (s : State) (w : World) :
  PyDict.get state_eqb s (q_table w) = None ->
  choose_action cfg s w = (Ok (pick (advance w)), advance (advance w)).
Proof.
  intro H. destruct (flt (draw w) (epsilon cfg)) eqn:E.
  - apply choose_action_explore, E.
  - unfold choose_action, bind. rewrite random_uniform_run, E.
    unfold table_contains, bind, read_table, ret, PyDict.contains. simpl.
    rewrite H. reflexivity.
Qed.

Lemma choose_action_exploit (cfg : Config) (s : State) (w : World) (row : Row) :
  flt (draw w) (epsilon cfg) = false ->
  PyDict.get state_eqb s (q_table w) = Some row ->
  choose_action cfg s w = (best_action row, advance w).
Proof.
  intros E H. unfold choose_action, bind. rewrite random_uniform_run, E.
  unfold table_contains, table_getitem, bind, read_table, ret, lift,
    PyDict.contains, PyDict.getitem.
  simpl. rewrite H. simpl. rewrite H. reflexivity.
Qed.

(** The greedy choice on a complete row, spelled out. *)
Lemma best_action_complete (b s h : float) :
  best_action [(Buy, b); (Sell, s); (Hold, h)] =
  Ok (if fgt s b then (if fgt h s then Hold else Sell)
      else (if fgt h b then Hold else Buy)).
Proof.
  unfold best_action. simpl.
  destruct (fgt s b); simpl; [destruct (fgt h s) | destruct (fgt h b)];
    reflexivity.
Qed.

Lemma future_complete (b s h : float) :
  py_max (fun v => v) float_gt (PyDict.values [(Buy, b); (Sell, s); (Hold, h)]) =
  Ok (if fgt s b then (if fgt h s then h else s)
      else (if fgt h b then h else b)).
Proof.
  simpl. destruct (fgt s b); simpl; [destruct (fgt h s) | destruct (fgt h b)];
    reflexivity.
Qed.

Lemma row_getitem_complete (row : Row) (a : Action) :
  row_complete row = true ->
  PyDict.getitem action_eqb a row = Ok (row_value row a).
Proof.
  intro H. destruct (row_complete_shape _ H) as (b & s & h & ->).
  destruct a; reflexivity.
Qed.

Lemma row_get_complete (row : Row) (a : Action) :
  row_complete row = true ->
  PyDict.get action_eqb a row = Some (row_value row a).
Proof.
  intro H. destruct (row_complete_shape _ H) as (b & s & h & ->).
  destruct a; reflexivity.
Qed.

Lemma row_max_complete (row : Row) :
  row_complete row = true ->
  py_max (fun v => v) float_gt (PyDict.values row) = Ok (future_of row).
Proof.
  intro H. destruct (row_complete_shape _ H) as (b & s & h & ->).
  unfold future_of. rewrite future_complete. reflexivity.
Qed.

(** [update_q] on a state whose row, if any, is complete never raises and
    leaves [updated_table]; the generator is untouched. *)
Lemma update_q_run_row (cfg : Config) (s : State) (a : Action) (r : float)
    (w : World) :
  row_complete (row_of (q_table w) s) = true -> state_ok s = true ->
  update_q cfg s a r w =
  (Ok tt, {| q_table := updated_table cfg (q_table w) s a r; gen := gen w |}).
Proof.
  intros RC K. pose proof (state_eqb_refl s K) as R.
  unfold update_q, updated_table, updated_row.
  unfold bind at 1. unfold table_contains, bind, read_table, ret,
    PyDict.contains. simpl.
  unfold row_of in *.
  destruct (PyDict.get state_eqb s (q_table w)) as [row|] eqn:G; simpl.
  - unfold table_getitem, table_setitem, bind, read_table, write_table, lift,
      PyDict.getitem. simpl. rewrite G. simpl.
    fold (PyDict.getitem action_eqb a row).
    rewrite (row_getitem_complete row a RC), (row_max_complete row RC).
    reflexivity.
  - unfold table_getitem, table_setitem, bind, read_table, write_table, lift,
      PyDict.getitem. simpl.
    rewrite (get_set_same state_eqb s fresh_row (q_table w) R).
    destruct a; simpl; rewrite (set_set state_eqb s _ _ (q_table w) R);
      reflexivity.
Qed.

Lemma update_q_run (cfg : Config) (s : State) (a : Action) (r : float)
    (w : World) :
  table_complete (q_table w) = true -> state_ok s = true ->
  update_q cfg s a r w =
  (Ok tt, {| q_table := updated_table cfg (q_table w) s a r; gen := gen w |}).
Proof.
  intros C K. apply update_q_run_row; [apply row_of_complete, C | exact K].
Qed.

(** The value [max] returns bounds the row: nothing in the row is greater,
    and it is one of the row's values. *)
Lemma future_bounds (b s h : float) :
  let f := if fgt s b then (if fgt h s then h else s)
           else (if fgt h b then h else b) in
  In f [b; s; h] /\ forall v, In v [b; s; h] -> fgt v f = false.
Proof.
  cbv zeta. change (fgt s b) with (flt b s).
  change (fgt h s) with (flt s h). change (fgt h b) with (flt b h).
  destruct (flt b s) eqn:E1;
    [destruct (flt s h) eqn:E2 | destruct (flt b h) eqn:E2];
    (split; [simpl; auto|]); intros v I; unfold fgt; fold flt;
    simpl in I; destruct I as [<-|[<-|[<-|[]]]].
  - apply flt_asym. eapply flt_trans; eassumption.
  - apply flt_asym, E2.
  - apply flt_irrefl.
  - apply flt_asym, E1.
  - apply flt_irrefl.
  - exact E2.
  - apply flt_asym, E2.
  - destruct (flt h s) eqn:E3; [|reflexivity].
    rewrite (flt_trans _ _ _ E2 E3) in E1. discriminate.
  - apply flt_irrefl.
  - apply flt_irrefl.
  - exact E1.
  - exact E2.
Qed.

Lemma no_nan_In (l : list float) (v : float) :
  no_nan l = true -> In v l -> is_nan v = false.
Proof.
  unfold no_nan. rewrite forallb_forall. intros H I.
  apply negb_true_iff, H, I.
Qed.

Lemma same_number_refl (x : float) : same_number x x.
Proof. left. reflexivity. Qed.

Lemma same_number_trans (x y z : float) :
  same_number x y -> same_number y z -> same_number x z.
Proof.
  intros [->|[A B]] [E|[C D]]; subst.
  - left. reflexivity.
  - right. auto.
  - right. auto.
  - right. auto.
Qed.

Lemma updated_table_complete (cfg : Config) (t : Table) (s : State)
    (a : Action) (r : float) :
  table_complete t = true ->
  table_complete (updated_table cfg t s a r) = true.
Proof.
  intro C. apply table_complete_set; [exact C|].
  apply row_set_complete, row_of_complete, C.
Qed.

Lemma updated_table_get_same (cfg : Config) (t : Table) (s : State)
    (a : Action) (r : float) :
  state_ok s = true ->
  PyDict.get state_eqb s (updated_table cfg t s a r) =
  Some (updated_row cfg (row_of t s) a r).
Proof. intro K. apply get_set_same, state_eqb_refl, K. Qed.

Lemma updated_table_get_other (cfg : Config) (t : Table) (s s' : State)
    (a : Action) (r : float) :
  state_eqb s s' = false ->
  PyDict.get state_eqb s' (updated_table cfg t s a r) =
  PyDict.get state_eqb s' t.
Proof.
  intro N.
  apply (get_set_other state_eqb state_eqb_sym state_eqb_trans). exact N.
Qed.

Lemma updated_row_get_same (cfg : Config) (row : Row) (a : Action) (r : float) :
  PyDict.get action_eqb a (updated_row cfg row a r) =
  Some (td_update cfg (row_value row a) r (future_of row)).
Proof. apply get_set_same, action_eqb_refl. Qed.

Lemma updated_row_get_other (cfg : Config) (row : Row) (a a' : Action)
    (r : float) :
  a' <> a ->
  PyDict.get action_eqb a' (updated_row cfg row a r) =
  PyDict.get action_eqb a' row.
Proof.
  intro N.
  apply (get_set_other action_eqb action_eqb_sym action_eqb_trans).
  destruct (action_eqb a a') eqn:E; [|reflexivity].
  apply action_eqb_eq in E. congruence.
Qed.

Lemma contains_updated_table (cfg : Config) (t : Table) (s : State)
    (a : Action) (r : float) :
  state_ok s = true ->
  PyDict.contains state_eqb s (updated_table cfg t s a r) = true.
Proof.
  intro K. unfold PyDict.contains.
  rewrite (updated_table_get_same cfg t s a r K). reflexivity.
Qed.

Lemma contains_set_other (t : Table) (s s' : State) (row : Row) :
  PyDict.contains state_eqb s' t = true ->
  PyDict.contains state_eqb s' (PyDict.set state_eqb s row t) = true.
Proof.
  unfold PyDict.contains. intro H.
  destruct (state_eqb s s') eqn:E.
  - rewrite <- (get_congr state_eqb state_eqb_sym state_eqb_trans s s' _ E).
    rewrite get_set_same; [reflexivity|].
    rewrite state_eqb_sym in E.
    exact (state_eqb_trans _ _ _ ltac:(rewrite state_eqb_sym; exact E) E).
  - rewrite (get_set_other state_eqb state_eqb_sym state_eqb_trans s s' row t E).
    exact H.
Qed.


(** * Facts about rounding to decimals *)

Lemma xorb_negb_l (a b : bool) : xorb (negb a) b = negb (xorb a b).
Proof. destruct a, b; reflexivity. Qed.

(** Rounding a mantissa does not look at the sign. *)
Lemma binary_round_aux_opp (sx : bool) (m e : Z) (l : location) :
  binary_round_aux prec emax (negb sx) m e l
  = fneg (binary_round_aux prec emax sx m e l).
Proof.
  unfold binary_round_aux.
  destruct (shr_fexp prec emax m e l) as [mrs' e'].
  destruct (shr_fexp prec emax
              (round_nearest_even (shr_m mrs') (loc_of_shr_record mrs'))
              e' loc_Exact) as [mrs'' e''].
  destruct (shr_m mrs'') as [|p|p]; try reflexivity.
  destruct (e'' <=? emax - prec); reflexivity.
Qed.

Lemma fdiv_opp_l (x y : float) : fdiv (fneg x) y = fneg (fdiv x y).
Proof.
  destruct x as [sx|sx| |sx mx ex], y as [sy|sy| |sy my ey]; simpl;
    try reflexivity; try (rewrite xorb_negb_l; reflexivity).
  unfold fdiv, SFdiv.
  destruct (SFdiv_core_binary prec emax (Z.pos mx) ex (Z.pos my) ey)
    as [[mz ez] lz].
  rewrite xorb_negb_l. apply binary_round_aux_opp.
Qed.

(** [round(-x, n) == -round(x, n)], bit for bit. *)
Lemma py_round_opp (x : float) (n : nat) :
  py_round (fneg x) n = fneg (py_round x n).
Proof.
  destruct x as [s|s| |s m e]; try reflexivity.
  unfold fneg at 1. unfold SFopp at 1. unfold py_round.
  destruct (round_half_even (Z.pos m * 10 ^ Z.of_nat n) e) as [|k|k];
    try reflexivity.
  exact (fdiv_opp_l (S754_finite s k 0) (of_Z (10 ^ Z.of_nat n))).
Qed.

Lemma fmul_opp_l (x y : float) : fmul (fneg x) y = fneg (fmul x y).
Proof.
  destruct x as [sx|sx| |sx mx ex], y as [sy|sy| |sy my ey]; simpl;
    try reflexivity; try (rewrite xorb_negb_l; reflexivity).
  unfold fmul, SFmul. rewrite xorb_negb_l. apply binary_round_aux_opp.
Qed.

Lemma binary_round_opp (sx : bool) (m : positive) (e : Z) :
  binary_round prec emax (negb sx) m e = fneg (binary_round prec emax sx m e).
Proof.
  unfold binary_round.
  destruct (shl_align m e (fexp prec emax (Z.pos (digits2_pos m) + e)))
    as [mz ez].
  apply binary_round_aux_opp.
Qed.

Lemma integer_opp (s : bool) (k : Z) :
  integer (negb s) k = fneg (integer s k).
Proof.
  destruct k as [|p|p]; try reflexivity.
  destruct s.
  - exact (binary_round_opp true p 0).
  - exact (binary_round_opp false p 0).
Qed.

Lemma rint_integer (s : bool) (m p : positive) :
  rint (S754_finite s m (Zneg p))
  = integer s (round_half_even (Zpos m) (Zneg p)).
Proof.
  unfold rint, integer.
  destruct (round_half_even (Z.pos m) (Z.neg p)); reflexivity.
Qed.

Lemma rint_opp (x : float) : rint (fneg x) = fneg (rint x).
Proof.
  destruct x as [s|s| |s m [|p|p]]; try reflexivity.
  change (fneg (S754_finite s m (Z.neg p)))
    with (S754_finite (negb s) m (Z.neg p)).
  rewrite !rint_integer. apply integer_opp.
Qed.

(** [round(-x, n) == -round(x, n)] on a numpy scalar too. *)
Lemma np_round_opp (x : float) (n : nat) :
  np_round (fneg x) n = fneg (np_round x n).
Proof.
  unfold np_round. rewrite fmul_opp_l, rint_opp. apply fdiv_opp_l.
Qed.

Lemma builtin_round_opp (x : Number) (n : nat) :
  builtin_round (negate x) n = fneg (builtin_round x n).
Proof. destruct x; simpl; [apply py_round_opp | apply np_round_opp]. Qed.

(** The integer [round_half_even] returns is the nearest one. *)
Lemma round_half_even_nearest (num e : Z) :
  0 <= num ->
  0 <= round_half_even num e /\
  nearest_even (num * 2 ^ Z.max e 0) (2 ^ Z.max (- e) 0)
    (round_half_even num e).
Proof.
  intro H. unfold nearest_even. destruct e as [|p|p].
  - simpl. rewrite !Z.mul_1_r. split; [exact H|].
    replace (2 * num - 2 * num) with 0 by lia. simpl. split; lia.
  - assert (P : 0 < 2 ^ Z.pos p) by (apply Z.pow_pos_nonneg; lia).
    rewrite Z.max_l by lia.
    replace (Z.max (- Z.pos p) 0) with 0 by lia.
    unfold round_half_even. simpl (2 ^ 0). split; [nia|].
    replace (2 * (num * 2 ^ Z.pos p) - 2 * (num * 2 ^ Z.pos p) * 1)
      with 0 by lia.
    simpl. split; lia.
  - replace (Z.max (Z.neg p) 0) with 0 by lia.
    replace (Z.max (- Z.neg p) 0) with (Z.pos p) by lia.
    simpl (2 ^ 0). rewrite Z.mul_1_r.
    unfold round_half_even.
    change (Z.pow_pos 2 p) with (2 ^ Z.pos p).
    set (d := 2 ^ Z.pos p).
    assert (P : 0 < d) by (apply Z.pow_pos_nonneg; lia).
    pose proof (Z.div_mod num d ltac:(lia)) as DM.
    pose proof (Z.mod_pos_bound num d P) as B.
    pose proof (Z.div_pos num d H P) as Q.
    set (q := num / d) in *. set (r := num mod d) in *.
    destruct (Z.compare_spec (2 * r) d) as [E|L|G].
    + destruct (Z.even q) eqn:Ev.
      * split; [exact Q|]. split; [|intros _; exact Ev]. nia.
      * split; [lia|]. split; [nia|]. intros _.
        rewrite Z.even_add, Ev. reflexivity.
    + split; [exact Q|]. split; [nia|]. intro T. exfalso. nia.
    + split; [lia|]. split; [nia|]. intro T. exfalso. nia.
Qed.

(** The builtin [round] of a finite float: the binary64 number nearest to
    the decimal whose digits are the nearest integer to [|x| * 10^n]. *)
Lemma py_round_decimal (s : bool) (m : positive) (e : Z) (n : nat) :
  exists k : Z,
    0 <= k /\
    nearest_even (exact_num m e * 10 ^ Z.of_nat n) (exact_den e) k /\
    py_round (S754_finite s m e) n = decimal s k n.
Proof.
  exists (round_half_even (Z.pos m * 10 ^ Z.of_nat n) e).
  assert (H : 0 <= Z.pos m * 10 ^ Z.of_nat n).
  { apply Z.mul_nonneg_nonneg; [lia|]. apply Z.pow_nonneg. lia. }
  destruct (round_half_even_nearest _ e H) as [K N].
  split; [exact K|]. split.
  - unfold exact_num, exact_den.
    replace (Z.pos m * 2 ^ Z.max e 0 * 10 ^ Z.of_nat n)
      with (Z.pos m * 10 ^ Z.of_nat n * 2 ^ Z.max e 0) by ring.
    exact N.
  - unfold py_round, decimal.
    destruct (round_half_even (Z.pos m * 10 ^ Z.of_nat n) e) as [|k|k];
      reflexivity.
Qed.

(** [rint] of a finite float with fractional bits is the float of the
    nearest integer. *)
Lemma rint_nearest (s : bool) (m p : positive) :
  exists k : Z,
    0 <= k /\
    nearest_even (Zpos m) (2 ^ Zpos p) k /\
    rint (S754_finite s m (Zneg p)) = integer s k.
Proof.
  exists (round_half_even (Zpos m) (Zneg p)).
  destruct (round_half_even_nearest (Zpos m) (Zneg p) ltac:(lia)) as [K N].
  split; [exact K|]. split; [|apply rint_integer].
  replace (Z.max (Z.neg p) 0) with 0 in N by lia.
  replace (Z.max (- Z.neg p) 0) with (Z.pos p) in N by lia.
  simpl (2 ^ 0) in N. rewrite Z.mul_1_r in N. exact N.
Qed.

Lemma fmul_finite_number (x : float) (s : bool) (m : positive) (e : Z) :
  is_nan x = false -> is_nan (fmul x (S754_finite s m e)) = false.
Proof.
  destruct x as [sx|sx| |sx mx ex]; try discriminate; try reflexivity.
  intros _. apply binary_round_aux_number. lia.
Qed.

Lemma of_Z_number (z : Z) : is_nan (of_Z z) = false.
Proof.
  unfold of_Z. destruct z as [|p|p]; [reflexivity| |]; simpl;
    unfold binary_round;
    destruct (shl_align p 0 (fexp prec emax (Z.pos (digits2_pos p) + 0)))
      as [mz ez];
    apply binary_round_aux_number; lia.
Qed.

Lemma rint_number (x : float) : is_nan x = false -> is_nan (rint x) = false.
Proof.
  destruct x as [s|s| |s m [|p|p]]; try discriminate; try reflexivity.
  intros _. rewrite rint_integer. unfold integer.
  destruct (round_half_even (Z.pos m) (Z.neg p)); try reflexivity.
  apply of_Z_number.
Qed.

Lemma fdiv_by_finite_number (x : float) (s : bool) (m : positive) (e : Z) :
  is_nan x = false -> is_nan (fdiv x (S754_finite s m e)) = false.
Proof.
  destruct x as [sx|sx| |sx mx ex]; try discriminate; try reflexivity.
  intros _. apply fdiv_finite_number.
Qed.

(** numpy's [round] of a number to one or two places is a number. *)
Lemma np_round_number (x : float) (n : nat) :
  (n = 1 \/ n = 2)%nat -> is_nan x = false -> is_nan (np_round x n) = false.
Proof.
  intros Hn Hx. unfold np_round.
  destruct Hn as [-> | ->].
  - change (of_Z (10 ^ Z.of_nat 1))
      with (S754_finite false 5629499534213120 (-49)).
    apply fdiv_by_finite_number, rint_number, fmul_finite_number, Hx.
  - change (of_Z (10 ^ Z.of_nat 2))
      with (S754_finite false 7036874417766400 (-46)).
    apply fdiv_by_finite_number, rint_number, fmul_finite_number, Hx.
Qed.

Lemma builtin_round_number (x : Number) (n : nat) :
  (n = 1 \/ n = 2)%nat -> is_nan (value x) = false ->
  is_nan (builtin_round x n) = false.
Proof.
  destruct x; simpl; [apply py_round_number | apply np_round_number].
Qed.

Lemma get_state_ok (score price_change : Number) :
  is_nan (value score) = false -> is_nan (value price_change) = false ->
  state_ok (get_state score price_change) = true.
Proof.
  intros N1 N2. unfold state_ok, get_state. simpl.
  rewrite (builtin_round_number score 1), (builtin_round_number price_change 2);
    auto.
Qed.

(** * The properties of the specification *)

Lemma values_complete (b s h : float) :
  PyDict.values [(Buy, b); (Sell, s); (Hold, h)] = [b; s; h].
Proof. reflexivity. Qed.

Lemma future_of_bounds (row : Row) :
  row_complete row = true ->
  In (future_of row) (PyDict.values row) /\
  forall v, In v (PyDict.values row) -> fgt v (future_of row) = false.
Proof.
  intro H. destruct (row_complete_shape _ H) as (b & s & h & ->).
  unfold future_of. rewrite future_complete, values_complete.
  apply future_bounds.
Qed.

(** C1: on a table of complete rows, [update_q] takes the stored row of the
    state, or the all-zero row it inserts when the state is absent, reads
    [old] from it under the action and [future] as the maximum of the
    values of that same row, and stores
    [old + alpha * (reward + gamma * future - old)] under the action;
    nothing else in the table changes.  The defaults are [alpha = 0.1] and
    [gamma = 0.9]. *)
Theorem update_q_td_step (cfg : Config) (s : State) (a : Action) (r : float)
    (w : World) :
  table_complete (q_table w) = true ->
  state_ok s = true ->
  exists (row : Row) (old future : float) (w' : World),
    (PyDict.get state_eqb s (q_table w) = Some row \/
     PyDict.get state_eqb s (q_table w) = None /\
     row = [(Buy, zero); (Sell, zero); (Hold, zero)]) /\
    PyDict.get action_eqb a row = Some old /\
    py_max (fun v => v) float_gt (PyDict.values row) = Ok future /\
    In future (PyDict.values row) /\
    (forall v, In v (PyDict.values row) -> fgt v future = false) /\
    (no_nan (PyDict.values row) = true ->
     forall v, In v (PyDict.values row) -> fle v future = true) /\
    update_q cfg s a r w = (Ok tt, w') /\
    table_value (q_table w') s a =
      Some (fadd old
              (fmul (alpha cfg)
                 (fsub (fadd r (fmul (gamma cfg) future)) old))) /\
    (forall a', a' <> a ->
       table_value (q_table w') s a' = PyDict.get action_eqb a' row) /\
    (forall s', state_eqb s s' = false ->
       PyDict.get state_eqb s' (q_table w') =
       PyDict.get state_eqb s' (q_table w)) /\
    gen w' = gen w /\
    alpha default_config = literal 1 1 /\
    gamma default_config = literal 9 1.
Proof.
  intros C K.
  pose proof (row_of_complete (q_table w) s C) as RC.
  destruct (future_of_bounds _ RC) as [FI FB].
  exists (row_of (q_table w) s), (row_value (row_of (q_table w) s) a),
    (future_of (row_of (q_table w) s)),
    {| q_table := updated_table cfg (q_table w) s a r; gen := gen w |}.
  split.
  { unfold row_of. destruct (PyDict.get state_eqb s (q_table w)); auto. }
  split; [apply row_get_complete, RC|].
  split; [apply row_max_complete, RC|].
  split; [exact FI|].
  split; [exact FB|].
  split.
  { intros NN v I. apply fle_total.
    - exact (no_nan_In _ _ NN I).
    - exact (no_nan_In _ _ NN FI).
    - exact (FB v I). }
  split; [apply update_q_run; assumption|].
  simpl. unfold table_value. rewrite (updated_table_get_same _ _ _ _ _ K).
  split; [apply updated_row_get_same|].
  split; [intros a' N; apply updated_row_get_other, N|].
  split; [intros s' N; apply updated_table_get_other, N|].
  repeat split.
Qed.

Lemma update_q_td_step_witness :
  exists w' : World,
    update_q default_config example_state Sell (literal 137 4) example_world
      = (Ok tt, w') /\
    gen w' = gen example_world.
Proof.
  destruct (update_q_td_step default_config example_state Sell
              (literal 137 4) example_world eq_refl eq_refl)
    as (row & old & future & w' & _ & _ & _ & _ & _ & _ & R & _ & _ & _ & G & _).
  exists w'. split; [exact R | exact G].
Defined.

Lemma rank_inj (a b : Action) : rank a = rank b -> a = b.
Proof. destruct a, b; simpl; congruence. Qed.

(** The greedy choice on a complete row: nothing in the row is greater
    than the chosen value, every value equal to it stands later in the
    row, and among numbers every earlier value is strictly smaller. *)
Lemma best_action_first_max (row : Row) :
  row_complete row = true ->
  exists (a : Action) (qa : float),
    best_action row = Ok a /\
    PyDict.get action_eqb a row = Some qa /\
    (forall a' q', PyDict.get action_eqb a' row = Some q' ->
       fgt q' qa = false) /\
    (forall a' q', PyDict.get action_eqb a' row = Some q' ->
       feq q' qa = true -> (rank a <= rank a')%nat) /\
    (no_nan (PyDict.values row) = true ->
     forall a' q', PyDict.get action_eqb a' row = Some q' ->
       fle q' qa = true /\ ((rank a' < rank a)%nat -> flt q' qa = true)).
Proof.
  intro H. destruct (row_complete_shape _ H) as (b & s & h & ->).
  rewrite best_action_complete, values_complete.
  pose proof (future_bounds b s h) as FB. cbv zeta in FB.
  unfold fgt in *. fold flt in *.
  assert (G : forall a' q',
             PyDict.get action_eqb a' [(Buy, b); (Sell, s); (Hold, h)] = Some q' ->
             (a' = Buy /\ q' = b) \/ (a' = Sell /\ q' = s) \/ (a' = Hold /\ q' = h)).
  { intros [| |] q' E; simpl in E; injection E as <-; auto. }
  destruct (flt b s) eqn:E1;
    [destruct (flt s h) eqn:E2 | destruct (flt b h) eqn:E2];
    destruct FB as [_ FB];
    [exists Hold, h | exists Sell, s | exists Hold, h | exists Buy, b];
    (split; [reflexivity|]); (split; [reflexivity|]).
  all: split;
    [ intros a' q' E;
      destruct (G a' q' E) as [[-> ->]|[[-> ->]|[-> ->]]]; apply FB; simpl; auto |].
  all: split;
    [ intros a' q' E Q;
      destruct (G a' q' E) as [[-> ->]|[[-> ->]|[-> ->]]]; simpl; try lia;
      exfalso; pose proof (feq_not_flt _ _ Q) as Q';
      first [ congruence
            | rewrite (flt_trans _ _ _ E1 E2) in Q'; discriminate
            | rewrite feq_sym in Q;
              pose proof (flt_feq_r _ _ _ E2 Q); congruence ] |
      intros NN a' q' E;
      assert (Nb : is_nan b = false) by (apply (no_nan_In _ _ NN); simpl; auto);
      assert (Ns : is_nan s = false) by (apply (no_nan_In _ _ NN); simpl; auto);
      assert (Nh : is_nan h = false) by (apply (no_nan_In _ _ NN); simpl; auto);
      destruct (G a' q' E) as [[-> ->]|[[-> ->]|[-> ->]]];
      (split; [apply fle_total; try assumption; apply FB; simpl; auto
              | simpl; intro L; try lia;
                first [ exact E1 | exact E2 | exact (flt_trans _ _ _ E1 E2)
                      | exact (fle_flt_trans h b s Ns E1 E2) ] ]) ].
Qed.

(** C2: when the state has a row and the exploration branch does not fire
    (as is always the case with [epsilon = 0], since the drawn number is
    never below zero), [choose_action] returns the action [max] picks from
    that row: no value of the row is greater than the chosen one, no action
    standing earlier in Buy, Sell, Hold has a value equal to it (among
    numbers the earlier values are strictly smaller), so with all three
    values equal the answer is Buy; and the answer depends on the row
    alone, whatever the generator holds. *)
Theorem choose_action_greedy (cfg : Config) (s : State) (w : World)
    (row : Row) :
  table_complete (q_table w) = true ->
  PyDict.get state_eqb s (q_table w) = Some row ->
  is_zero (epsilon cfg) = true \/ flt (draw w) (epsilon cfg) = false ->
  exists (a : Action) (qa : float),
    choose_action cfg s w = (Ok a, advance w) /\
    PyDict.get action_eqb a row = Some qa /\
    (forall a' q', PyDict.get action_eqb a' row = Some q' ->
       fgt q' qa = false) /\
    (forall a' q', PyDict.get action_eqb a' row = Some q' ->
       feq q' qa = true -> (rank a <= rank a')%nat) /\
    (no_nan (PyDict.values row) = true ->
     forall a' q', PyDict.get action_eqb a' row = Some q' ->
       fle q' qa = true /\ ((rank a' < rank a)%nat -> flt q' qa = true)) /\
    ((forall a' q', PyDict.get action_eqb a' row = Some q' ->
        feq q' qa = true) -> a = Buy) /\
    (forall w2 : World,
       PyDict.get state_eqb s (q_table w2) = Some row ->
       flt (draw w2) (epsilon cfg) = false ->
       fst (choose_action cfg s w2) = Ok a).
Proof.
  intros C G E.
  assert (E' : flt (draw w) (epsilon cfg) = false).
  { destruct E as [Z|E]; [|exact E].
    apply plus_not_below_zero; [apply draw_plus | exact Z]. }
  pose proof (table_complete_get _ _ _ C G) as RC.
  destruct (best_action_first_max row RC) as (a & qa & B & Q & M & T & N).
  exists a, qa.
  split; [rewrite (choose_action_exploit cfg s w row E' G), B; reflexivity|].
  split; [exact Q|]. split; [exact M|]. split; [exact T|]. split; [exact N|].
  split.
  - intro A. apply rank_inj. simpl.
    pose proof (row_get_complete row Buy RC) as GB.
    pose proof (T Buy _ GB (A Buy _ GB)) as L. simpl in L. lia.
  - intros w2 G2 E2. rewrite (choose_action_exploit cfg s w2 row E2 G2).
    exact B.
Qed.

Lemma choose_action_greedy_witness :
  exists (a : Action) (qa : float),
    choose_action greedy_config example_state example_world
      = (Ok a, advance example_world) /\
    PyDict.get action_eqb a
      [(Buy, literal 5 1); (Sell, literal 5 1); (Hold, literal 25 2)]
      = Some qa /\
    ((forall a' q',
        PyDict.get action_eqb a'
          [(Buy, literal 5 1); (Sell, literal 5 1); (Hold, literal 25 2)]
          = Some q' -> feq q' qa = true) -> a = Buy).
Proof.
  destruct (choose_action_greedy greedy_config example_state example_world
              [(Buy, literal 5 1); (Sell, literal 5 1); (Hold, literal 25 2)]
              eq_refl eq_refl (or_introl eq_refl))
    as (a & qa & R & Q & _ & _ & _ & B & _).
  exists a, qa. split; [exact R|]. split; [exact Q | exact B].
Defined.

(** With Buy and Sell tied above Hold, the greedy choice is Buy. *)
Example choose_action_tie_example :
  fst (choose_action greedy_config example_state example_world) = Ok Buy.
Proof. vm_compute. reflexivity. Qed.

(** C3: on a state that has no row, whatever [epsilon] is, [choose_action]
    raises nothing: it returns the action [random.choice] draws, one of
    Buy, Sell and Hold, and never reads the missing row. *)
Theorem choose_action_absent_explores (cfg : Config) (s : State) (w : World) :
  PyDict.contains state_eqb s (q_table w) = false ->
  exists a : Action,
    choose_action cfg s w = (Ok a, advance (advance w)) /\
    a = pick (advance w) /\
    In a actions.
Proof.
  intro H. exists (pick (advance w)).
  split; [|split; [reflexivity | apply pick_in_actions]].
  apply choose_action_absent. unfold PyDict.contains in H.
  destruct (PyDict.get state_eqb s (q_table w)); [discriminate | reflexivity].
Qed.

Lemma choose_action_absent_explores_witness :
  exists a : Action,
    choose_action default_config example_state (empty_world example_gen)
      = (Ok a, advance (advance (empty_world example_gen))) /\
    In a actions.
Proof.
  destruct (choose_action_absent_explores default_config example_state
              (empty_world example_gen) eq_refl) as (a & R & _ & I).
  exists a. split; [exact R | exact I].
Defined.

(** C5: [choose_action] leaves the table as it found it, for every table
    and state, whether the state has a row or not and whichever branch is
    taken; only the cursor of the generator advances. *)
Theorem choose_action_reads_only (cfg : Config) (s : State) (w : World) :
  q_table (snd (choose_action cfg s w)) = q_table w /\
  entropy (gen (snd (choose_action cfg s w))) = entropy (gen w).
Proof.
  destruct (flt (draw w) (epsilon cfg)) eqn:E.
  - rewrite (choose_action_explore cfg s w E). split; reflexivity.
  - destruct (PyDict.get state_eqb s (q_table w)) as [row|] eqn:G.
    + rewrite (choose_action_exploit cfg s w row E G). split; reflexivity.
    + rewrite (choose_action_absent cfg s w G). split; reflexivity.
Qed.

(** C4 as stated fails for [choose_action]: called on a state that has no
    row, it leaves the table without one. *)
Lemma choose_action_inserts_no_row :
  PyDict.contains state_eqb example_state
    (q_table (empty_world example_gen)) = false /\
  ~ (exists row : Row,
       PyDict.get state_eqb example_state
         (q_table (snd (choose_action default_config example_state
                          (empty_world example_gen)))) = Some row /\
       row_complete row = true).
Proof.
  split; [reflexivity|].
  intros (row & G & _). vm_compute in G. discriminate.
Qed.

(** C4, amended: for a state that has no row, [choose_action] leaves the
    table without one, and a single [update_q] on that state leaves a row
    with exactly the three entries Buy, Sell, Hold, in that order: the
    entry of the action holds the new estimate computed from zeros, the
    other two hold 0. *)
Theorem update_q_creates_complete_row (cfg : Config) (s : State) (a : Action)
    (r : float) (w : World) :
  PyDict.contains state_eqb s (q_table w) = false ->
  state_ok s = true ->
  PyDict.contains state_eqb s (q_table (snd (choose_action cfg s w))) = false /\
  exists (row : Row) (w' : World),
    update_q cfg s a r w = (Ok tt, w') /\
    PyDict.get state_eqb s (q_table w') = Some row /\
    PyDict.keys row = [Buy; Sell; Hold] /\
    length row = 3%nat /\
    PyDict.get action_eqb a row = Some (td_update cfg zero r zero) /\
    (forall a', a' <> a -> PyDict.get action_eqb a' row = Some zero).
Proof.
  intros A K.
  assert (G : PyDict.get state_eqb s (q_table w) = None).
  { unfold PyDict.contains in A.
    destruct (PyDict.get state_eqb s (q_table w)); [discriminate|reflexivity]. }
  split.
  { rewrite (choose_action_absent cfg s w G). exact A. }
  assert (RO : row_of (q_table w) s = fresh_row)
    by (unfold row_of; rewrite G; reflexivity).
  exists (updated_row cfg fresh_row a r),
    {| q_table := updated_table cfg (q_table w) s a r; gen := gen w |}.
  split.
  { apply update_q_run_row; [rewrite RO; reflexivity | exact K]. }
  simpl. rewrite (updated_table_get_same _ _ _ _ _ K), RO.
  split; [reflexivity|].
  split; [destruct a; reflexivity|].
  split; [destruct a; reflexivity|].
  split; [destruct a; reflexivity|].
  intros a' N. destruct a, a'; try reflexivity; congruence.
Qed.

Lemma update_q_creates_complete_row_witness :
  exists (row : Row) (w' : World),
    update_q default_config example_state Hold (literal 137 4)
      (empty_world example_gen) = (Ok tt, w') /\
    PyDict.get state_eqb example_state (q_table w') = Some row /\
    PyDict.keys row = [Buy; Sell; Hold].
Proof.
  destruct (update_q_creates_complete_row default_config example_state Hold
              (literal 137 4) (empty_world example_gen) eq_refl eq_refl)
    as (_ & row & w' & R & G & Ks & _).
  exists row, w'. split; [exact R|]. split; [exact G | exact Ks].
Defined.

Lemma is_finite_number (x : float) : is_finite x = true -> is_nan x = false.
Proof. destruct x; try discriminate; reflexivity. Qed.

(** C6: [get_state] returns exactly the pair of the score rounded to one
    decimal place and the price change rounded to two, by the [round] of
    each argument's type.  For a builtin float the component is the
    binary64 number nearest to the decimal whose digits are the integer
    nearest to the exact value times 10 (or 100), ties to even; for a
    [numpy.float64] it is [rint(x * 10) / 10] (or with 100), where [rint]
    gives the nearest integer, ties to even; a zero keeps its sign.  It is
    a function of its two arguments alone (it neither reads nor writes the
    world), equal inputs give equal keys, and every pair of finite inputs
    is accepted and yields a key that a table can hold. *)
Theorem get_state_rounds (score price_change : Number) :
  get_state score price_change
    = (builtin_round score 1, builtin_round price_change 2) /\
  (forall s m e, score = Builtin (S754_finite s m e) ->
     exists k : Z,
       0 <= k /\ nearest_even (exact_num m e * 10) (exact_den e) k /\
       fst (get_state score price_change) = decimal s k 1) /\
  (forall s m e, price_change = Builtin (S754_finite s m e) ->
     exists k : Z,
       0 <= k /\ nearest_even (exact_num m e * 100) (exact_den e) k /\
       snd (get_state score price_change) = decimal s k 2) /\
  (forall x, score = Numpy x ->
     fst (get_state score price_change)
       = fdiv (rint (fmul x (of_Z 10))) (of_Z 10)) /\
  (forall x, price_change = Numpy x ->
     snd (get_state score price_change)
       = fdiv (rint (fmul x (of_Z 100))) (of_Z 100)) /\
  (forall s m p,
     exists k : Z,
       0 <= k /\ nearest_even (Zpos m) (2 ^ Zpos p) k /\
       rint (S754_finite s m (Zneg p)) = integer s k) /\
  (forall s m e, 0 <= e -> rint (S754_finite s m e) = S754_finite s m e) /\
  (is_zero (value score) = true ->
     fst (get_state score price_change) = value score) /\
  (is_zero (value price_change) = true ->
     snd (get_state score price_change) = value price_change) /\
  (forall score' price_change' : Number,
     score' = score -> price_change' = price_change ->
     get_state score' price_change' = get_state score price_change) /\
  (is_finite (value score) = true -> is_finite (value price_change) = true ->
   state_ok (get_state score price_change) = true).
Proof.
  split; [reflexivity|].
  split; [intros s m e ->; exact (py_round_decimal s m e 1)|].
  split; [intros s m e ->; exact (py_round_decimal s m e 2)|].
  split; [intros x ->; reflexivity|].
  split; [intros x ->; reflexivity|].
  split; [intros s m p; apply rint_nearest|].
  split; [intros s m [|p|p] H; try reflexivity; lia|].
  split.
  { destruct score as [[[|]| | |]|[[|]| | |]]; try discriminate;
      intros _; reflexivity. }
  split.
  { destruct price_change as [[[|]| | |]|[[|]| | |]]; try discriminate;
      intros _; reflexivity. }
  split; [intros score' price_change' -> ->; reflexivity|].
  intros F1 F2. apply get_state_ok; apply is_finite_number; assumption.
Qed.

(** Rounding follows the binary value.  The builtin [round] sends a true
    tie to the even digit (0.25 to 0.2, 0.375 to 0.38) and a literal that
    lies just off a tie to the nearer side (2.675 down to 2.67, 0.005 up
    to 0.01), and keeps the sign of a result that is zero; numpy's [round]
    decides on the rounded product ([0.005 * 100] is exactly 0.5 and goes
    to 0, [0.015 * 100] is exactly 1.5 and goes to 2). *)
Example get_state_examples :
  get_state (Builtin (literal 125 3)) (Builtin (literal 2675 3))
    = (literal 1 1, literal 267 2) /\
  get_state (Builtin (literal 25 2)) (Builtin (literal 375 3))
    = (literal 2 1, literal 38 2) /\
  get_state (Builtin (fneg (literal 4 2))) (Builtin (fneg (literal 1 3)))
    = (S754_zero true, S754_zero true) /\
  get_state (Builtin (literal 4215 4)) (Builtin (literal 5 3))
    = (literal 4 1, literal 1 2) /\
  get_state (Builtin (literal 4215 4)) (Numpy (literal 5 3))
    = (literal 4 1, zero) /\
  get_state (Builtin (literal 4215 4)) (Numpy (literal 15 3))
    = (literal 4 1, literal 2 2).
Proof. vm_compute. repeat split. Qed.

(** C7 as stated fails in binary64: the entry of Buy after the update is
    not the float 0.00137. *)
Lemma end_to_end_buy_is_not_137e5 :
  exists v : float,
    table_value
      (q_table
         (snd (update_q default_config
                 (get_state (Builtin (literal 42 2))
                    (Builtin (literal 137 4))) Buy
                 (literal 137 4) (empty_world example_gen))))
      (get_state (Builtin (literal 42 2)) (Builtin (literal 137 4))) Buy
      = Some v /\
    feq v (literal 137 5) = false /\
    v <> literal 137 5.
Proof.
  exists (S754_finite false 6318009845245522 (-62)).
  split; [vm_compute; reflexivity|].
  split; [vm_compute; reflexivity|].
  vm_compute. discriminate.
Qed.

(** C7, amended: [get_state(0.42, 0.0137)] is the key [(0.4, 0.01)]
    (whether the price change is a builtin float or a numpy scalar); on
    the empty table [choose_action] takes the exploration branch and raises
    nothing; and after [update_q] on that key with Buy and reward 0.0137 the
    table is the single row of that key, where Sell and Hold are 0 and Buy
    is the binary64 product of 0.1 and 0.0137, the float next above
    0.00137 (0.0013700000000000001). *)
Theorem end_to_end_scenario (cfg : Config) (g : Gen) :
  get_state (Builtin (literal 42 2)) (Builtin (literal 137 4))
    = (literal 4 1, literal 1 2) /\
  get_state (Builtin (literal 42 2)) (Numpy (literal 137 4))
    = (literal 4 1, literal 1 2) /\
  (exists a : Action,
     choose_action cfg (literal 4 1, literal 1 2) (empty_world g)
       = (Ok a, advance (advance (empty_world g))) /\
     q_table (advance (advance (empty_world g))) = []) /\
  update_q default_config (literal 4 1, literal 1 2) Buy (literal 137 4)
      (advance (advance (empty_world g)))
    = (Ok tt,
       {| q_table :=
            [((literal 4 1, literal 1 2),
              [(Buy, fmul (literal 1 1) (literal 137 4));
               (Sell, zero); (Hold, zero)])];
          gen := gen (advance (advance (empty_world g))) |}) /\
  fmul (literal 1 1) (literal 137 4)
    = S754_finite false 6318009845245522 (-62) /\
  literal 137 5 = S754_finite false 6318009845245521 (-62) /\
  fmul (literal 1 1) (literal 137 4) = SFsucc prec emax (literal 137 5).
Proof.
  split; [vm_compute; reflexivity|].
  split; [vm_compute; reflexivity|].
  split.
  { exists (pick (advance (empty_world g))). split; [|reflexivity].
    apply choose_action_absent. reflexivity. }
  split; [vm_compute; reflexivity|].
  repeat split; vm_compute; reflexivity.
Qed.

(** C9: both callers pass [update_q] the reward computed from the chosen
    action and the price change: the price change for Buy, its negation
    for Sell, 0 for Hold. *)
Theorem caller_reward (cfg : Config) (score price_change : Number) (w : World) :
  (reward_of Buy (value price_change) = value price_change /\
   reward_of Sell (value price_change) = fneg (value price_change) /\
   reward_of Hold (value price_change) = zero) /\
  suggest cfg score price_change w =
    match choose_action cfg (get_state score price_change) w with
    | (Ok a, w1) =>
        match update_q cfg (get_state score price_change) a
                (reward_of a (value price_change)) w1 with
        | (Ok _, w2) => (Ok a, w2)
        | (Raise e, w2) => (Raise e, w2)
        end
    | (Raise e, w1) => (Raise e, w1)
    end /\
  (forall sentiment_score : float,
     analyze_sentiment cfg sentiment_score price_change w
       = suggest cfg (Builtin sentiment_score) price_change w) /\
  (forall sentiment_score : float,
     handle_chat cfg sentiment_score w =
       match random_uniform (fneg (literal 5 2)) (literal 5 2) w with
       | (Ok simulated, w1) =>
           suggest cfg (Builtin sentiment_score) (Builtin simulated) w1
       | (Raise e, w1) => (Raise e, w1)
       end).
Proof.
  split; [repeat split|].
  split.
  - unfold suggest, bind.
    destruct (choose_action cfg (get_state score price_change) w)
      as [[a|e] w1]; [|reflexivity].
    destruct (update_q cfg (get_state score price_change) a
                (reward_of a (value price_change)) w1) as [[u|e] w2];
      reflexivity.
  - split; intro; reflexivity.
Qed.

Lemma all_zero_In (l : list float) (v : float) :
  all_zero l = true -> In v l -> is_zero v = true.
Proof. unfold all_zero. rewrite forallb_forall. auto. Qed.

(** With finite [alpha] and [gamma], the update of zeros is a zero, and it
    is [0.0] itself when the old value is. *)
Lemma td_update_zeros (cfg : Config) (old r future : float) :
  is_finite (alpha cfg) = true -> is_finite (gamma cfg) = true ->
  is_zero old = true -> is_zero r = true -> is_zero future = true ->
  is_zero (td_update cfg old r future) = true /\
  (old = zero -> td_update cfg old r future = zero).
Proof.
  intros FA FG ZO ZR ZF.
  assert (Z : is_zero (fmul (alpha cfg)
                         (fsub (fadd r (fmul (gamma cfg) future)) old)) = true).
  { apply fmul_zero_r; [exact FA|].
    apply fsub_zeros; [|exact ZO].
    apply fadd_zeros; [exact ZR|].
    apply fmul_zero_r; assumption. }
  unfold td_update. split.
  - apply fadd_zeros; assumption.
  - intros ->. apply fadd_plus_zero_l, Z.
Qed.

(** C10 as stated fails for an [alpha] or a [gamma] that is not finite:
    with [alpha = inf] (or [gamma = inf]) the product with the zero
    temporal-difference term (or with the zero [future]) is NaN, and the
    entry of a fresh all-zero row becomes NaN. *)
Lemma infinite_rate_breaks_zero_fixed_point :
  PyDict.get state_eqb example_state (q_table (empty_world example_gen))
    = None /\
  table_value
    (q_table (snd (update_q runaway_alpha_config example_state Buy zero
                     (empty_world example_gen))))
    example_state Buy = Some S754_nan /\
  table_value
    (q_table (snd (update_q runaway_gamma_config example_state Buy zero
                     (empty_world example_gen))))
    example_state Buy = Some S754_nan /\
  is_zero S754_nan = false.
Proof. repeat split; vm_compute; reflexivity. Qed.

(** C10, amended: on a state whose row is absent or holds three zeros,
    [update_q] with reward 0 and finite [alpha] and [gamma] leaves the
    three entries
    of the state equal to 0: an absent state gains exactly the all-zero
    row at the end of the table, a present one keeps its place, and no
    other row changes. *)
Theorem zero_reward_fixed_point (cfg : Config) (s : State) (a : Action)
    (r : float) (w : World) :
  table_complete (q_table w) = true ->
  state_ok s = true ->
  is_finite (alpha cfg) = true ->
  is_finite (gamma cfg) = true ->
  is_zero r = true ->
  (PyDict.get state_eqb s (q_table w) = None \/
   exists row, PyDict.get state_eqb s (q_table w) = Some row /\
               all_zero (PyDict.values row) = true) ->
  exists (row' : Row) (w' : World),
    update_q cfg s a r w = (Ok tt, w') /\
    PyDict.get state_eqb s (q_table w') = Some row' /\
    PyDict.keys row' = [Buy; Sell; Hold] /\
    all_zero (PyDict.values row') = true /\
    (forall s', state_eqb s s' = false ->
       PyDict.get state_eqb s' (q_table w') =
       PyDict.get state_eqb s' (q_table w)) /\
    (PyDict.get state_eqb s (q_table w) = None ->
       q_table w' =
       q_table w ++ [(s, [(Buy, zero); (Sell, zero); (Hold, zero)])]) /\
    (forall row, PyDict.get state_eqb s (q_table w) = Some row ->
       PyDict.keys (q_table w') = PyDict.keys (q_table w) /\
       forall a', a' <> a ->
         PyDict.get action_eqb a' row' = PyDict.get action_eqb a' row).
Proof.
  intros C K FA FG ZR H.
  pose proof (row_of_complete (q_table w) s C) as RC.
  assert (AZ : all_zero (PyDict.values (row_of (q_table w) s)) = true).
  { unfold row_of. destruct H as [->|(row & -> & Z)]; [reflexivity | exact Z]. }
  destruct (future_of_bounds _ RC) as [FI _].
  pose proof (all_zero_In _ _ AZ FI) as ZF.
  assert (ZO : is_zero (row_value (row_of (q_table w) s) a) = true).
  { apply (all_zero_In _ _ AZ).
    destruct (row_complete_shape _ RC) as (b & s0 & h & ->).
    destruct a; simpl; auto. }
  destruct (td_update_zeros cfg _ r _ FA FG ZO ZR ZF) as [ZN ZE].
  exists (updated_row cfg (row_of (q_table w) s) a r),
    {| q_table := updated_table cfg (q_table w) s a r; gen := gen w |}.
  split; [apply update_q_run; assumption|]. simpl.
  split; [apply updated_table_get_same, K|].
  split.
  { pose proof (row_set_complete _ a
                  (td_update cfg (row_value (row_of (q_table w) s) a) r
                     (future_of (row_of (q_table w) s))) RC) as RC'.
    apply actions_eqb_eq in RC'. exact RC'. }
  split.
  { unfold updated_row.
    destruct (row_complete_shape _ RC) as (b & s0 & h & E).
    rewrite E in *. simpl in AZ.
    apply andb_true_iff in AZ. destruct AZ as [Zb AZ].
    apply andb_true_iff in AZ. destruct AZ as [Zs AZ].
    apply andb_true_iff in AZ. destruct AZ as [Zh _].
    destruct a; simpl; rewrite ?Zb, ?Zs, ?Zh, ZN; reflexivity. }
  split; [intros s' N; apply updated_table_get_other, N|].
  split.
  - intro G. unfold updated_table.
    rewrite (set_absent state_eqb s _ _ G).
    assert (RO : row_of (q_table w) s = fresh_row)
      by (unfold row_of; rewrite G; reflexivity).
    rewrite RO in *. unfold updated_row.
    rewrite (ZE ltac:(destruct a; reflexivity)).
    destruct a; reflexivity.
  - intros row G. split.
    + unfold updated_table. apply (set_keys_present state_eqb s _ row), G.
    + intros a' N.
      assert (RO : row_of (q_table w) s = row)
        by (unfold row_of; rewrite G; reflexivity).
      rewrite RO. apply updated_row_get_other, N.
Qed.

Lemma zero_reward_fixed_point_witness :
  exists (row' : Row) (w' : World),
    update_q default_config example_state Sell zero (empty_world example_gen)
      = (Ok tt, w') /\
    PyDict.get state_eqb example_state (q_table w') = Some row' /\
    all_zero (PyDict.values row') = true.
Proof.
  destruct (zero_reward_fixed_point default_config example_state Sell zero
              (empty_world example_gen) eq_refl eq_refl eq_refl eq_refl
              eq_refl (or_introl eq_refl))
    as (row' & w' & R & G & _ & Z & _).
  exists row', w'. split; [exact R|]. split; [exact G | exact Z].
Defined.

(** One call with a zero learning rate and a finite temporal-difference
    term keeps every stored value, up to the sign of a zero. *)
Lemma zero_alpha_step (cfg : Config) (t : Table) (s : State) (a : Action)
    (r : float) :
  is_zero (alpha cfg) = true ->
  table_complete t = true ->
  state_ok s = true ->
  is_finite (td_error cfg t s a r) = true ->
  forall s' a' v,
    table_value t s' a' = Some v ->
    exists v', table_value (updated_table cfg t s a r) s' a' = Some v' /\
               same_number v v'.
Proof.
  intros ZA C K F s' a' v TV. unfold table_value in *.
  destruct (state_eqb s s') eqn:E.
  - rewrite <- (get_congr state_eqb state_eqb_sym state_eqb_trans s s' _ E) in TV.
    rewrite <- (get_congr state_eqb state_eqb_sym state_eqb_trans s s' _ E).
    rewrite (updated_table_get_same _ _ _ _ _ K).
    destruct (PyDict.get state_eqb s t) as [row|] eqn:G; [|discriminate].
    assert (RO : row_of t s = row) by (unfold row_of; rewrite G; reflexivity).
    unfold td_error in F. rewrite RO in *.
    destruct (action_eqb a a') eqn:EA.
    + apply action_eqb_eq in EA. subst a'.
      rewrite updated_row_get_same. eexists. split; [reflexivity|].
      assert (RV : row_value row a = v) by (unfold row_value; rewrite TV; reflexivity).
      rewrite RV in *. unfold td_update.
      pose proof (fmul_zero_l (alpha cfg) _ ZA F) as Z.
      destruct (fadd_zero_r v _ Z) as [->|[Z1 Z2]].
      * left. reflexivity.
      * right. split; assumption.
    + rewrite updated_row_get_other.
      * exists v. split; [exact TV | apply same_number_refl].
      * intros ->. rewrite action_eqb_refl in EA. discriminate.
  - rewrite (updated_table_get_other _ _ _ _ _ _ E).
    exists v. split; [exact TV | apply same_number_refl].
Qed.

(** A sequence of calls whose keys are valid runs to the end on a table of
    complete rows and leaves [table_after]. *)
Lemma update_all_run (cfg : Config) (calls : list (State * Action * float)) :
  forall w : World,
    table_complete (q_table w) = true ->
    calls_finite cfg (q_table w) calls = true ->
    exists w' : World,
      update_all cfg calls w = (Ok tt, w') /\
      q_table w' = table_after cfg (q_table w) calls /\
      gen w' = gen w.
Proof.
  induction calls as [|[[s a] r] rest IH]; intros w C F.
  - exists w. repeat split.
  - simpl in F. apply andb_true_iff in F. destruct F as [F F3].
    apply andb_true_iff in F. destruct F as [K F2].
    simpl. unfold bind. rewrite (update_q_run cfg s a r w C K).
    destruct (IH {| q_table := updated_table cfg (q_table w) s a r;
                    gen := gen w |}
                 (updated_table_complete cfg _ s a r C) F3)
      as (w' & R & T & G).
    exists w'. split; [exact R|]. split; [exact T | exact G].
Qed.

(** C8 as stated fails in binary64: with [alpha = 0], a finite reward and a
    table of finite values, the temporal-difference term can overflow, its
    product with zero is NaN, and the stored value changes from 0 to NaN. *)
Lemma zero_alpha_overflow_changes_value :
  is_zero (alpha frozen_config) = true /\
  is_finite huge = true /\
  table_value (q_table huge_world) example_state Sell = Some zero /\
  table_value
    (q_table (snd (update_q frozen_config example_state Sell huge huge_world)))
    example_state Sell = Some S754_nan /\
  ~ same_number zero S754_nan.
Proof.
  split; [reflexivity|]. split; [vm_compute; reflexivity|].
  split; [vm_compute; reflexivity|]. split; [vm_compute; reflexivity|].
  intros [E|[_ E]]; discriminate.
Qed.

Lemma zero_alpha_step_back (cfg : Config) (t : Table) (s : State)
    (a : Action) (r : float) :
  is_zero (alpha cfg) = true ->
  table_complete t = true ->
  state_ok s = true ->
  is_finite (td_error cfg t s a r) = true ->
  forall s' a' v',
    table_value (updated_table cfg t s a r) s' a' = Some v' ->
    (exists v, table_value t s' a' = Some v /\ same_number v v') \/
    (PyDict.get state_eqb s' t = None /\ is_zero v' = true).
Proof.
  intros ZA C K F s' a' v' TV.
  pose proof (row_of_complete t s C) as RC.
  destruct (PyDict.get state_eqb s' t) as [row'|] eqn:G'.
  - left.
    pose proof (table_complete_get _ _ _ C G') as RC'.
    assert (TV0 : table_value t s' a' = Some (row_value row' a'))
      by (unfold table_value; rewrite G'; apply row_get_complete, RC').
    destruct (zero_alpha_step cfg t s a r ZA C K F s' a' _ TV0)
      as (v1 & TV1 & S1).
    rewrite TV in TV1. injection TV1 as <-.
    exists (row_value row' a'). split; [exact TV0 | exact S1].
  - right. split; [reflexivity|].
    unfold table_value in TV.
    destruct (state_eqb s s') eqn:E.
    + pose proof (get_congr state_eqb state_eqb_sym state_eqb_trans s s' t E)
        as GC.
      rewrite G' in GC.
      rewrite <- (get_congr state_eqb state_eqb_sym state_eqb_trans s s' _ E)
        in TV.
      rewrite (updated_table_get_same _ _ _ _ _ K) in TV.
      assert (RO : row_of t s = fresh_row)
        by (unfold row_of; rewrite GC; reflexivity).
      unfold td_error in F. rewrite RO in *.
      destruct (action_eqb a a') eqn:EA.
      * apply action_eqb_eq in EA. subst a'.
        rewrite updated_row_get_same in TV. injection TV as <-.
        unfold td_update. apply fadd_zeros.
        -- destruct a; reflexivity.
        -- apply fmul_zero_l; assumption.
      * rewrite updated_row_get_other in TV.
        -- destruct a'; simpl in TV; injection TV as <-; reflexivity.
        -- intros ->. rewrite action_eqb_refl in EA. discriminate.
    + rewrite (updated_table_get_other _ _ _ _ _ _ E), G' in TV.
      discriminate.
Qed.

Lemma contains_updated_back (cfg : Config) (t : Table) (s s' : State)
    (a : Action) (r : float) :
  PyDict.contains state_eqb s' (updated_table cfg t s a r) = true ->
  PyDict.contains state_eqb s' t = true \/ state_eqb s s' = true.
Proof.
  intro H. destruct (state_eqb s s') eqn:E; [right; reflexivity|].
  left. unfold PyDict.contains in *.
  rewrite (updated_table_get_other _ _ _ _ _ _ E) in H. exact H.
Qed.

Lemma table_after_contains (cfg : Config)
    (calls : list (State * Action * float)) :
  forall (t : Table) (s : State),
    PyDict.contains state_eqb s t = true ->
    PyDict.contains state_eqb s (table_after cfg t calls) = true.
Proof.
  induction calls as [|[[s1 a1] r1] rest IH]; intros t s H; [exact H|].
  simpl. apply IH. apply contains_set_other, H.
Qed.

(** What a run with a zero learning rate and finite temporal-difference
    terms leaves behind, row by row. *)
Lemma zero_alpha_after (cfg : Config) (calls : list (State * Action * float)) :
  is_zero (alpha cfg) = true ->
  forall t : Table,
    table_complete t = true ->
    calls_finite cfg t calls = true ->
    (forall s a v,
       table_value t s a = Some v ->
       exists v', table_value (table_after cfg t calls) s a = Some v' /\
                  same_number v v') /\
    (forall s a v',
       table_value (table_after cfg t calls) s a = Some v' ->
       (exists v, table_value t s a = Some v /\ same_number v v') \/
       (PyDict.get state_eqb s t = None /\ is_zero v' = true)) /\
    (forall s a r,
       In (s, a, r) calls ->
       PyDict.contains state_eqb s (table_after cfg t calls) = true) /\
    (forall s,
       PyDict.contains state_eqb s (table_after cfg t calls) = true ->
       PyDict.contains state_eqb s t = true \/
       exists s0 a r, In (s0, a, r) calls /\ state_eqb s0 s = true).
Proof.
  intro ZA. induction calls as [|[[s1 a1] r1] rest IH]; intros t C F.
  - simpl. split; [|split; [|split]].
    + intros s a v TV. exists v. split; [exact TV | apply same_number_refl].
    + intros s a v' TV. left. exists v'.
      split; [exact TV | apply same_number_refl].
    + intros s a r [].
    + intros s H. left. exact H.
  - simpl in F. apply andb_true_iff in F. destruct F as [F F3].
    apply andb_true_iff in F. destruct F as [K F2].
    pose proof (updated_table_complete cfg t s1 a1 r1 C) as C1.
    destruct (IH _ C1 F3) as (A & B & Cn & D). simpl.
    split; [|split; [|split]].
    + intros s a v TV.
      destruct (zero_alpha_step cfg t s1 a1 r1 ZA C K F2 s a v TV)
        as (v1 & TV1 & S1).
      destruct (A s a v1 TV1) as (v2 & TV2 & S2).
      exists v2. split; [exact TV2 | exact (same_number_trans _ _ _ S1 S2)].
    + intros s a v' TV.
      destruct (B s a v' TV) as [(v1 & TV1 & S1)|[G1 Z1]].
      * destruct (zero_alpha_step_back cfg t s1 a1 r1 ZA C K F2 s a v1 TV1)
          as [(v & TV0 & S0)|[G0 Z0]].
        -- left. exists v.
           split; [exact TV0 | exact (same_number_trans _ _ _ S0 S1)].
        -- right. split; [exact G0|].
           destruct S1 as [<-|[_ Z']]; assumption.
      * right. split; [|exact Z1].
        destruct (PyDict.get state_eqb s t) eqn:G0; [|reflexivity].
        assert (H : PyDict.contains state_eqb s t = true)
          by (unfold PyDict.contains; rewrite G0; reflexivity).
        apply (contains_set_other t s1 s
                 (updated_row cfg (row_of t s1) a1 r1)) in H.
        unfold PyDict.contains, updated_table in *. rewrite G1 in H.
        discriminate.
    + intros s a r [E|I].
      * injection E as <- <- <-.
        apply table_after_contains, contains_updated_table, K.
      * exact (Cn s a r I).
    + intros s H. destruct (D s H) as [H1|(s0 & a & r & I & E)].
      * destruct (contains_updated_back cfg t s1 s a1 r1 H1) as [H0|E].
        -- left. exact H0.
        -- right. exists s1, a1, r1. split; [left; reflexivity | exact E].
      * right. exists s0, a, r. split; [right; exact I | exact E].
Qed.

(** C8, amended: with [alpha = 0], any sequence of [update_q] calls on a
    table of complete rows, each call with a finite temporal-difference
    term [reward + gamma * future - old] (no overflow), runs to the end
    and leaves every value the table held equal to what it was, up to the
    sign of a zero; the only other entries of the final table are those
    of the rows inserted for the states the calls name that had none, and
    every such state gains one complete row whose three values are 0. *)
Theorem zero_alpha_keeps_values (cfg : Config)
    (calls : list (State * Action * float)) (w : World) :
  is_zero (alpha cfg) = true ->
  table_complete (q_table w) = true ->
  calls_finite cfg (q_table w) calls = true ->
  exists w' : World,
    update_all cfg calls w = (Ok tt, w') /\
    (forall s a v,
       table_value (q_table w) s a = Some v ->
       exists v', table_value (q_table w') s a = Some v' /\ same_number v v') /\
    (forall s a v',
       table_value (q_table w') s a = Some v' ->
       (exists v, table_value (q_table w) s a = Some v /\ same_number v v') \/
       (PyDict.get state_eqb s (q_table w) = None /\ is_zero v' = true)) /\
    (forall s a r,
       In (s, a, r) calls ->
       PyDict.get state_eqb s (q_table w) = None ->
       exists row : Row,
         PyDict.get state_eqb s (q_table w') = Some row /\
         PyDict.keys row = [Buy; Sell; Hold] /\
         all_zero (PyDict.values row) = true) /\
    (forall s,
       PyDict.contains state_eqb s (q_table w') = true ->
       PyDict.contains state_eqb s (q_table w) = true \/
       exists s0 a r, In (s0, a, r) calls /\ state_eqb s0 s = true) /\
    table_complete (q_table w') = true /\
    gen w' = gen w.
Proof.
  intros ZA C F.
  destruct (update_all_run cfg calls w C F) as (w' & R & T & G).
  destruct (zero_alpha_after cfg calls ZA (q_table w) C F) as (A & B & Cn & D).
  assert (C' : table_complete (q_table w') = true).
  { rewrite T. clear - C. generalize dependent (q_table w). clear w.
    induction calls as [|[[s a] r] rest IH]; intros t C; [exact C|].
    simpl. apply IH, updated_table_complete, C. }
  exists w'. rewrite T in *.
  split; [exact R|]. split; [exact A|]. split; [exact B|].
  split; [|split; [exact D|split; [exact C' | exact G]]].
  intros s a r I G0.
  pose proof (Cn s a r I) as H. unfold PyDict.contains in H.
  destruct (PyDict.get state_eqb s (table_after cfg (q_table w) calls))
    as [row|] eqn:G1; [|discriminate].
  pose proof (table_complete_get _ _ _ C' G1) as RC.
  exists row. split; [reflexivity|].
  split; [apply actions_eqb_eq; exact RC|].
  assert (Z : forall a', is_zero (row_value row a') = true).
  { intro a'.
    assert (TV : table_value (table_after cfg (q_table w) calls) s a'
                 = Some (row_value row a'))
      by (unfold table_value; rewrite G1; apply row_get_complete, RC).
    destruct (B s a' _ TV) as [(v & TV0 & _)|[_ Z]]; [|exact Z].
    unfold table_value in TV0. rewrite G0 in TV0. discriminate. }
  destruct (row_complete_shape _ RC) as (b & sl & h & ->).
  pose proof (Z Buy) as ZB. pose proof (Z Sell) as ZS.
  pose proof (Z Hold) as ZH.
  unfold row_value in ZB, ZS, ZH. simpl in ZB, ZS, ZH.
  unfold all_zero. simpl. rewrite ZB, ZS, ZH. reflexivity.
Qed.

Lemma zero_alpha_keeps_values_witness :
  exists w' : World,
    update_all frozen_config
      [(example_state, Buy, literal 137 4);
       ((literal 1 1, zero), Sell, literal 5 2);
       (example_state, Buy, literal 137 4)] example_world = (Ok tt, w') /\
    (exists v',
       table_value (q_table w') example_state Buy = Some v' /\
       same_number (literal 5 1) v') /\
    (exists row : Row,
       PyDict.get state_eqb (literal 1 1, zero) (q_table w') = Some row /\
       PyDict.keys row = [Buy; Sell; Hold] /\
       all_zero (PyDict.values row) = true).
Proof.
  destruct (zero_alpha_keeps_values frozen_config
              [(example_state, Buy, literal 137 4);
               ((literal 1 1, zero), Sell, literal 5 2);
               (example_state, Buy, literal 137 4)] example_world
              eq_refl eq_refl eq_refl) as (w' & R & P & _ & N & _).
  exists w'. split; [exact R|]. split.
  - exact (P example_state Buy (literal 5 1) eq_refl).
  - exact (N (literal 1 1, zero) Sell (literal 5 2)
             (or_intror (or_introl eq_refl)) eq_refl).
Defined.

(** * Further properties of the program *)

(** ** The sentiment label *)

Lemma fle_opp (x y : float) : fle (fneg x) (fneg y) = fle y x.
Proof.
  unfold fle, SFleb, SFcompare, fneg, SFopp.
  destruct x as [s1| s1| |s1 m1 e1], y as [s2| s2| |s2 m2 e2];
    try destruct s1; try destruct s2; simpl; try reflexivity.
  all: cmp_cases; try reflexivity; subst; exfalso; lia.
Qed.

Lemma fle_transitive (x y z : float) :
  fle x y = true -> fle y z = true -> fle x z = true.
Proof.
  unfold fle, SFleb, SFcompare.
  destruct x as [s1| s1| |s1 m1 e1], y as [s2| s2| |s2 m2 e2],
           z as [s3| s3| |s3 m3 e3];
    try destruct s1; try destruct s2; try destruct s3; simpl;
    try discriminate; try reflexivity; intros H1 H2.
  all: cmp_cases; try discriminate; try reflexivity; subst; exfalso; lia.
Qed.

(** No score is both at least 0.05 and at most -0.05. *)
Lemma thresholds_apart (x : float) :
  fle (literal 5 2) x = true -> fle x (fneg (literal 5 2)) = false.
Proof.
  assert (L : fle (literal 5 2) (fneg (literal 5 2)) = false)
    by (vm_compute; reflexivity).
  intro H. destruct (fle x (fneg (literal 5 2))) eqn:E; [|reflexivity].
  rewrite (fle_transitive _ _ _ H E) in L. discriminate.
Qed.

Lemma classify_sentiment_cases (x : float) :
  classify_sentiment x =
  if fle (literal 5 2) x then Positive
  else if fle x (fneg (literal 5 2)) then Negative else Neutral.
Proof. reflexivity. Qed.

(** The label of the opposite score is the opposite label: negating a
    score swaps Positive and Negative and keeps Neutral, for every float
    (NaN and the infinities included). *)
Theorem classify_sentiment_mirror (score : float) :
  classify_sentiment (fneg score) = mirror (classify_sentiment score).
Proof.
  rewrite !classify_sentiment_cases.
  assert (A : fle (literal 5 2) (fneg score) = fle score (fneg (literal 5 2))).
  { rewrite <- (fle_opp (fneg (literal 5 2)) score). reflexivity. }
  rewrite A, (fle_opp score (literal 5 2)).
  destruct (fle (literal 5 2) score) eqn:P.
  - rewrite (thresholds_apart score P). reflexivity.
  - destruct (fle score (fneg (literal 5 2))); reflexivity.
Qed.

(** The label is monotone in the score: a score that is at most another
    never gets a more positive label. *)
Theorem classify_sentiment_monotone (x y : float) :
  fle x y = true ->
  polarity (classify_sentiment x) <= polarity (classify_sentiment y).
Proof.
  intro L. rewrite !classify_sentiment_cases.
  destruct (fle (literal 5 2) y) eqn:Py.
  - destruct (fle (literal 5 2) x); [|destruct (fle x (fneg (literal 5 2)))];
      simpl; lia.
  - assert (Px : fle (literal 5 2) x = false).
    { destruct (fle (literal 5 2) x) eqn:Px; [|reflexivity].
      rewrite (fle_transitive _ _ _ Px L) in Py. discriminate. }
    rewrite Px.
    destruct (fle y (fneg (literal 5 2))) eqn:Ny.
    + rewrite (fle_transitive _ _ _ L Ny). simpl. lia.
    + destruct (fle x (fneg (literal 5 2))); simpl; lia.
Qed.

Lemma classify_sentiment_monotone_witness :
  polarity (classify_sentiment (fneg (literal 3 1)))
  <= polarity (classify_sentiment (literal 4 2)).
Proof.
  apply (classify_sentiment_monotone (fneg (literal 3 1)) (literal 4 2)).
  vm_compute. reflexivity.
Defined.

(** ** The state key *)

(** The state encoding is odd: negating the score and the price change
    negates both components of the key, so opposite market situations get
    mirrored keys (rounding half-to-even has no bias towards either sign);
    this holds for builtin floats and for numpy scalars alike. *)
Theorem get_state_negation (score price_change : Number) :
  get_state (negate score) (negate price_change)
  = (fneg (fst (get_state score price_change)),
     fneg (snd (get_state score price_change))).
Proof.
  unfold get_state. simpl. rewrite !builtin_round_opp. reflexivity.
Qed.

Lemma feq_nan_l (x : float) : feq S754_nan x = false.
Proof. reflexivity. Qed.

Lemma feq_nan_r (x : float) : feq x S754_nan = false.
Proof. destruct x; reflexivity. Qed.

(** A key with a NaN component equals no stored key. *)
Lemma get_nan_key (s : State) (t : Table) :
  state_ok s = false -> PyDict.get state_eqb s t = None.
Proof.
  intro H. induction t as [|[k row] t IH]; [reflexivity|].
  simpl. replace (state_eqb k s) with false; [exact IH|].
  unfold state_ok in H. unfold state_eqb.
  destruct s as [a b]. simpl in *.
  destruct a; try (rewrite feq_nan_r; reflexivity).
  all: destruct b; try discriminate; rewrite feq_nan_r, andb_false_r;
    reflexivity.
Qed.

(** A price change so small that it rounds to zero names the same row
    whatever its sign: the keys [(.., 0.0)] and [(.., -0.0)] that
    [get_state] builds from it and from its negation find the same entry
    of every table. *)
Theorem get_state_zero_sign (score price_change : Number) (t : Table) :
  is_zero (builtin_round price_change 2) = true ->
  snd (get_state score (negate price_change))
    = fneg (snd (get_state score price_change)) /\
  PyDict.get state_eqb (get_state score (negate price_change)) t
  = PyDict.get state_eqb (get_state score price_change) t.
Proof.
  intro Z. unfold get_state. simpl. rewrite builtin_round_opp.
  split; [reflexivity|].
  destruct (is_nan (builtin_round score 1)) eqn:N.
  - rewrite !get_nan_key; try reflexivity; unfold state_ok; simpl;
      rewrite N; reflexivity.
  - apply (get_congr state_eqb state_eqb_sym state_eqb_trans).
    unfold state_eqb. simpl. rewrite (feq_refl _ N).
    destruct (builtin_round price_change 2) as [[|]| | |]; try discriminate;
      reflexivity.
Qed.

Lemma get_state_zero_sign_witness :
  PyDict.get state_eqb
    (get_state (Builtin (literal 42 2)) (Builtin (fneg (literal 1 3))))
    [((literal 4 1, zero), fresh_row)]
  = PyDict.get state_eqb
      (get_state (Builtin (literal 42 2)) (Builtin (literal 1 3)))
      [((literal 4 1, zero), fresh_row)].
Proof.
  exact (proj2 (get_state_zero_sign (Builtin (literal 42 2))
                  (Builtin (literal 1 3))
                  [((literal 4 1, zero), fresh_row)] eq_refl)).
Defined.

(** ** Exceptions and the row invariant *)

Lemma all_actions (a : Action) : In a actions.
Proof. destruct a; simpl; auto. Qed.

(** On a table of complete rows [choose_action] raises nothing. *)
Lemma choose_action_total (cfg : Config) (s : State) (w : World) :
  table_complete (q_table w) = true ->
  exists (a : Action) (w1 : World),
    choose_action cfg s w = (Ok a, w1) /\
    q_table w1 = q_table w /\
    In a actions.
Proof.
  intro C. destruct (flt (draw w) (epsilon cfg)) eqn:E.
  - exists (pick (advance w)), (advance (advance w)).
    split; [apply choose_action_explore, E|]. split; [reflexivity|].
    apply all_actions.
  - destruct (PyDict.get state_eqb s (q_table w)) as [row|] eqn:G.
    + pose proof (table_complete_get _ _ _ C G) as RC.
      destruct (best_action_first_max row RC) as (a & qa & B & _).
      exists a, (advance w).
      split; [rewrite (choose_action_exploit cfg s w row E G), B; reflexivity|].
      split; [reflexivity | apply all_actions].
    + exists (pick (advance w)), (advance (advance w)).
      split; [apply choose_action_absent, G|]. split; [reflexivity|].
      apply all_actions.
Qed.

(** [update_q] keeps the row invariant and raises nothing: on a table whose
    rows are all complete, for any action and any reward (NaN and the
    infinities included), the call returns normally, every row of the new
    table is complete again, the state now has a row, and the generator is
    untouched. *)
Theorem update_q_keeps_rows_complete (cfg : Config) (s : State) (a : Action)
    (r : float) (w : World) :
  table_complete (q_table w) = true ->
  state_ok s = true ->
  exists w' : World,
    update_q cfg s a r w = (Ok tt, w') /\
    table_complete (q_table w') = true /\
    PyDict.contains state_eqb s (q_table w') = true /\
    gen w' = gen w.
Proof.
  intros C K.
  exists {| q_table := updated_table cfg (q_table w) s a r; gen := gen w |}.
  split; [apply update_q_run; assumption|]. simpl.
  split; [apply updated_table_complete, C|].
  split; [apply contains_updated_table, K | reflexivity].
Qed.

Lemma update_q_keeps_rows_complete_witness :
  exists w' : World,
    update_q default_config example_state Hold S754_nan example_world
      = (Ok tt, w') /\
    table_complete (q_table w') = true.
Proof.
  destruct (update_q_keeps_rows_complete default_config example_state Hold
              S754_nan example_world eq_refl eq_refl) as (w' & R & C & _).
  exists w'. split; [exact R | exact C].
Defined.

(** The table only grows: [update_q] never removes or reorders a row.  The
    list of keys stays as it is when the state has a row, and gains the
    state as its last key when it has none; every state that had a row
    still has one. *)
Theorem update_q_grows_table (cfg : Config) (s : State) (a : Action)
    (r : float) (w : World) :
  table_complete (q_table w) = true ->
  state_ok s = true ->
  exists w' : World,
    update_q cfg s a r w = (Ok tt, w') /\
    PyDict.keys (q_table w') =
      (if PyDict.contains state_eqb s (q_table w)
       then PyDict.keys (q_table w)
       else PyDict.keys (q_table w) ++ [s]) /\
    (forall s', PyDict.contains state_eqb s' (q_table w) = true ->
                PyDict.contains state_eqb s' (q_table w') = true).
Proof.
  intros C K.
  exists {| q_table := updated_table cfg (q_table w) s a r; gen := gen w |}.
  split; [apply update_q_run; assumption|]. simpl. split.
  - unfold updated_table, PyDict.contains.
    destruct (PyDict.get state_eqb s (q_table w)) as [row|] eqn:G.
    + apply (set_keys_present state_eqb s _ row), G.
    + rewrite (set_absent state_eqb s _ _ G).
      unfold PyDict.keys. rewrite map_app. reflexivity.
  - intros s' H. apply contains_set_other, H.
Qed.

Lemma update_q_grows_table_witness :
  exists w' : World,
    update_q default_config (literal 1 1, zero) Buy (literal 137 4)
      example_world = (Ok tt, w') /\
    PyDict.keys (q_table w') = [example_state; (literal 1 1, zero)].
Proof.
  destruct (update_q_grows_table default_config (literal 1 1, zero) Buy
              (literal 137 4) example_world eq_refl eq_refl)
    as (w' & R & Ks & _).
  exists w'. split; [exact R | exact Ks].
Defined.

(** ** The two callers and the request loop *)

(** The shared block on a table of complete rows and inputs that are
    numbers. *)
Lemma suggest_run (cfg : Config) (score price_change : Number) (w : World) :
  table_complete (q_table w) = true ->
  is_nan (value score) = false -> is_nan (value price_change) = false ->
  exists (a : Action) (w1 : World),
    choose_action cfg (get_state score price_change) w = (Ok a, w1) /\
    q_table w1 = q_table w /\
    suggest cfg score price_change w =
    (Ok a,
     {| q_table :=
          updated_table cfg (q_table w) (get_state score price_change) a
            (reward_of a (value price_change));
        gen := gen w1 |}).
Proof.
  intros C N1 N2.
  destruct (choose_action_total cfg (get_state score price_change) w C)
    as (a & w1 & R & T & _).
  exists a, w1. split; [exact R|]. split; [exact T|].
  unfold suggest, bind. rewrite R.
  rewrite (update_q_run cfg _ a _ w1); [| rewrite T; exact C
                                         | apply get_state_ok; assumption].
  rewrite T. reflexivity.
Qed.

(** [analyze_sentiment] never raises on numbers: with a table of complete
    rows, a sentiment score that is not NaN and a price change (the
    [numpy.float64] read from the price data, or the builtin [0]) that is
    not NaN, the decision block returns one of the three actions, leaves
    every row complete, and the state encoded by the [round] of each
    argument's type has a row afterwards whose entry for the returned
    action is the temporal-difference update with the reward of that
    action. *)
Theorem analyze_sentiment_safe (cfg : Config) (score : float)
    (price_change : Number) (w : World) :
  table_complete (q_table w) = true ->
  is_nan score = false ->
  is_nan (value price_change) = false ->
  exists (a : Action) (w' : World),
    analyze_sentiment cfg score price_change w = (Ok a, w') /\
    In a actions /\
    table_complete (q_table w') = true /\
    PyDict.contains state_eqb (get_state (Builtin score) price_change)
      (q_table w') = true /\
    table_value (q_table w') (get_state (Builtin score) price_change) a =
      Some (td_update cfg
              (row_value
                 (row_of (q_table w) (get_state (Builtin score) price_change))
                 a)
              (reward_of a (value price_change))
              (future_of
                 (row_of (q_table w)
                    (get_state (Builtin score) price_change)))).
Proof.
  intros C N1 N2.
  destruct (suggest_run cfg (Builtin score) price_change w C N1 N2)
    as (a & w1 & _ & _ & R).
  eexists a, _. split; [exact R|]. simpl.
  split; [apply all_actions|].
  split; [apply updated_table_complete, C|].
  pose proof (get_state_ok (Builtin score) price_change N1 N2) as K.
  split; [apply contains_updated_table, K|].
  unfold table_value.
  rewrite (updated_table_get_same _ _ _ _ _ K).
  apply updated_row_get_same.
Qed.

(** A price change of 0.005 read from the data frame is rounded by numpy
    to 0.0, so the row is filed under [(0.4, 0.0)]. *)
Lemma analyze_sentiment_safe_witness :
  exists (a : Action) (w' : World),
    analyze_sentiment default_config (literal 4215 4) (Numpy (literal 5 3))
      (empty_world example_gen) = (Ok a, w') /\
    get_state (Builtin (literal 4215 4)) (Numpy (literal 5 3))
      = (literal 4 1, zero) /\
    PyDict.contains state_eqb
      (get_state (Builtin (literal 4215 4)) (Numpy (literal 5 3)))
      (q_table w') = true.
Proof.
  destruct (analyze_sentiment_safe default_config (literal 4215 4)
              (Numpy (literal 5 3)) (empty_world example_gen)
              eq_refl eq_refl eq_refl)
    as (a & w' & R & _ & _ & K & _).
  exists a, w'. split; [exact R|]. split; [|exact K].
  vm_compute. reflexivity.
Defined.

Lemma binary_normalize_number (m e : Z) :
  is_nan (binary_normalize prec emax m e false) = false.
Proof.
  destruct m as [|p|p]; [reflexivity| |]; simpl; unfold binary_round;
    destruct (shl_align p e (fexp prec emax (Z.pos (digits2_pos p) + e)))
      as [mz ez];
    apply binary_round_aux_number; lia.
Qed.

(** The simulated price change [random.uniform(-0.05, 0.05)] is a
    number. *)
Lemma simulated_price_number (w : World) :
  exists p : float,
    random_uniform (fneg (literal 5 2)) (literal 5 2) w = (Ok p, advance w) /\
    is_nan p = false.
Proof.
  eexists. split; [reflexivity|].
  set (r := binary_normalize prec emax (word w mod 2 ^ 53) (-53) false).
  assert (P : plus r = true).
  { apply binary_normalize_plus. apply Z.mod_pos_bound. reflexivity. }
  change (is_nan (fadd (fneg (literal 5 2))
                    (fmul (fsub (literal 5 2) (fneg (literal 5 2))) r))
          = false).
  assert (Q : plus (fmul (fsub (literal 5 2) (fneg (literal 5 2))) r) = true)
    by (apply fmul_plus; try reflexivity; exact P).
  destruct (fmul (fsub (literal 5 2) (fneg (literal 5 2))) r)
    as [[|]|[|]| |[|] m e]; try discriminate; try reflexivity.
  unfold fadd, SFadd.
  replace (fneg (literal 5 2))
    with (S754_finite true 7205759403792794 (-57)) by (vm_compute; reflexivity).
  cbv beta iota zeta. apply binary_normalize_number.
Qed.

(** [handle_chat] never raises on a numeric sentiment score: the simulated
    price change is always a number, so on a table of complete rows the
    call returns one of the three actions and leaves every row complete. *)
Theorem handle_chat_safe (cfg : Config) (score : float) (w : World) :
  table_complete (q_table w) = true ->
  is_nan score = false ->
  exists (a : Action) (w' : World),
    handle_chat cfg score w = (Ok a, w') /\
    In a actions /\
    table_complete (q_table w') = true.
Proof.
  intros C N.
  destruct (simulated_price_number w) as (p & U & Np).
  destruct (suggest_run cfg (Builtin score) (Builtin p) (advance w) C N Np)
    as (a & w1 & _ & _ & R).
  eexists a, _. split.
  - unfold handle_chat, bind. rewrite U. exact R.
  - simpl. split; [apply all_actions | apply updated_table_complete, C].
Qed.

Lemma handle_chat_safe_witness :
  exists (a : Action) (w' : World),
    handle_chat default_config (fneg (literal 6 1)) example_world = (Ok a, w') /\
    table_complete (q_table w') = true.
Proof.
  destruct (handle_chat_safe default_config (fneg (literal 6 1)) example_world
              eq_refl eq_refl) as (a & w' & R & _ & C).
  exists a, w'. split; [exact R | exact C].
Defined.

(** Every table the program can reach has complete rows and no request
    raises: starting from the empty table of process start, any sequence
    of analysis and chat requests whose scores and price changes are
    numbers is served to the end, with one suggested action per request
    and at most one new row per request. *)
Theorem serve_safe (cfg : Config) (requests : list Request) (w : World) :
  table_complete (q_table w) = true ->
  forallb request_ok requests = true ->
  exists (suggested : list Action) (w' : World),
    serve cfg requests w = (Ok suggested, w') /\
    length suggested = length requests /\
    table_complete (q_table w') = true /\
    (length (q_table w) <= length (q_table w')
       <= length (q_table w) + length requests)%nat.
Proof.
  revert w. induction requests as [|q rest IH]; intros w C F.
  - exists [], w. repeat split; try assumption; simpl; lia.
  - simpl in F. apply andb_true_iff in F. destruct F as [Fq Fr].
    assert (L : forall cfg0 t s a r,
               (length t <= length (updated_table cfg0 t s a r)
                <= length t + 1)%nat).
    { intros cfg0 t s a r. unfold updated_table.
      generalize (updated_row cfg0 (row_of t s) a r). intro row.
      induction t as [|[k v] t IHt]; simpl; [lia|].
      destruct (state_eqb k s); simpl; lia. }
    destruct q as [score price_change|score]; simpl in Fq.
    + apply andb_true_iff in Fq. destruct Fq as [N1 N2].
      apply negb_true_iff in N1, N2.
      destruct (suggest_run cfg (Builtin score) price_change w C N1 N2)
        as (a & w1 & _ & _ & R).
      set (w2 := {| q_table := updated_table cfg (q_table w)
                                  (get_state (Builtin score) price_change) a
                                  (reward_of a (value price_change));
                    gen := gen w1 |}) in R.
      destruct (IH w2 (updated_table_complete cfg _ _ _ _ C) Fr)
        as (l & w' & S & Len & C' & B).
      exists (a :: l), w'. split.
      { simpl. unfold bind. unfold analyze_sentiment. rewrite R.
        fold (serve cfg rest). rewrite S. reflexivity. }
      split; [simpl; lia|]. split; [exact C'|].
      simpl in B.
      pose proof (L cfg (q_table w) (get_state (Builtin score) price_change)
                    a (reward_of a (value price_change))).
      simpl. lia.
    + apply negb_true_iff in Fq.
      destruct (simulated_price_number w) as (p & U & Np).
      destruct (suggest_run cfg (Builtin score) (Builtin p) (advance w) C Fq Np)
        as (a & w1 & _ & _ & R).
      set (w2 := {| q_table := updated_table cfg (q_table (advance w))
                                  (get_state (Builtin score) (Builtin p)) a
                                  (reward_of a (value (Builtin p)));
                    gen := gen w1 |}) in R.
      destruct (IH w2 (updated_table_complete cfg _ _ _ _ C) Fr)
        as (l & w' & S & Len & C' & B).
      exists (a :: l), w'. split.
      { simpl. unfold bind at 1. unfold handle_chat, bind at 1. rewrite U.
        rewrite R. fold (serve cfg rest). unfold bind. rewrite S.
        reflexivity. }
      split; [simpl; lia|]. split; [exact C'|].
      simpl in B.
      pose proof (L cfg (q_table w) (get_state (Builtin score) (Builtin p))
                    a (reward_of a p)).
      simpl. lia.
Qed.

Lemma serve_safe_witness :
  exists (suggested : list Action) (w' : World),
    serve default_config
      [Analyze (literal 42 2) (Numpy (literal 137 4));
       Chat (fneg (literal 6 1));
       Analyze (literal 42 2) (Builtin zero)]
      (empty_world example_gen) = (Ok suggested, w') /\
    length suggested = 3%nat /\
    table_complete (q_table w') = true.
Proof.
  destruct (serve_safe default_config
              [Analyze (literal 42 2) (Numpy (literal 137 4));
               Chat (fneg (literal 6 1));
               Analyze (literal 42 2) (Builtin zero)]
              (empty_world example_gen) eq_refl eq_refl)
    as (l & w' & R & Len & C & _).
  exists l, w'. split; [exact R|]. split; [exact Len | exact C].
Defined.

(** ** How learning steers the greedy choice *)

Lemma updated_row_fresh (cfg : Config) (a : Action) (r : float) :
  updated_row cfg fresh_row a r
  = PyDict.set action_eqb a (td_update cfg zero r zero) fresh_row.
Proof. destruct a; reflexivity. Qed.

(** After the first update of a state that had no row, the greedy policy
    ([epsilon = 0]) repeats the action if its new estimate is above zero,
    avoids it if the estimate is below zero (taking the first untried
    action: Sell after a punished Buy, Buy otherwise), and answers Buy when
    the estimate is zero or not a number. *)
Theorem first_update_steers_greedy (cfg : Config) (s : State) (a : Action)
    (r : float) (w : World) :
  is_zero (epsilon cfg) = true ->
  PyDict.contains state_eqb s (q_table w) = false ->
  state_ok s = true ->
  exists (w' : World) (a' : Action),
    update_q cfg s a r w = (Ok tt, w') /\
    choose_action cfg s w' = (Ok a', advance w') /\
    (flt zero (td_update cfg zero r zero) = true -> a' = a) /\
    (flt (td_update cfg zero r zero) zero = true ->
     a' = if action_eqb a Buy then Sell else Buy) /\
    (flt zero (td_update cfg zero r zero) = false ->
     flt (td_update cfg zero r zero) zero = false -> a' = Buy).
Proof.
  intros Z A K.
  assert (G : PyDict.get state_eqb s (q_table w) = None).
  { unfold PyDict.contains in A.
    destruct (PyDict.get state_eqb s (q_table w)); [discriminate|reflexivity]. }
  assert (RO : row_of (q_table w) s = fresh_row)
    by (unfold row_of; rewrite G; reflexivity).
  set (v := td_update cfg zero r zero).
  set (w' := {| q_table := updated_table cfg (q_table w) s a r;
                gen := gen w |}).
  assert (R : update_q cfg s a r w = (Ok tt, w')).
  { apply update_q_run_row; [rewrite RO; reflexivity | exact K]. }
  assert (G' : PyDict.get state_eqb s (q_table w')
               = Some (PyDict.set action_eqb a v fresh_row)).
  { simpl. rewrite (updated_table_get_same _ _ _ _ _ K), RO.
    rewrite updated_row_fresh. reflexivity. }
  assert (E : flt (draw w') (epsilon cfg) = false)
    by (apply plus_not_below_zero; [apply draw_plus | exact Z]).
  pose proof (choose_action_exploit cfg s w' _ E G') as CA.
  exists w'.
  destruct a; simpl in CA; rewrite best_action_complete in CA;
    unfold fgt in CA; fold flt in CA;
    change (S754_zero false) with zero in CA;
    change (flt zero zero) with false in CA; cbv iota in CA;
    revert CA;
    destruct (flt zero v) eqn:P; destruct (flt v zero) eqn:N;
    try (rewrite (flt_asym _ _ P) in N; discriminate);
    intro CA; eexists; (split; [exact R|]); (split; [exact CA|]);
    repeat split; intros; try reflexivity; try discriminate.
Qed.

Lemma first_update_steers_greedy_witness :
  exists w' : World,
    update_q greedy_config example_state Hold (literal 137 4)
      (empty_world example_gen) = (Ok tt, w') /\
    choose_action greedy_config example_state w' = (Ok Hold, advance w').
Proof.
  destruct (first_update_steers_greedy greedy_config example_state Hold
              (literal 137 4) (empty_world example_gen) eq_refl eq_refl
              eq_refl) as (w' & a' & R & CA & P & _).
  exists w'. split; [exact R|].
  rewrite <- (P ltac:(vm_compute; reflexivity)). exact CA.
Defined.

(** ** Updates of different states *)

Lemma state_set_comm (s1 s2 : State) (row1 row2 : Row) (t : Table) :
  state_eqb s1 s2 = false ->
  PyDict.contains state_eqb s1 t || PyDict.contains state_eqb s2 t = true ->
  PyDict.set state_eqb s1 row1 (PyDict.set state_eqb s2 row2 t)
  = PyDict.set state_eqb s2 row2 (PyDict.set state_eqb s1 row1 t).
Proof.
  intros N. unfold PyDict.contains.
  induction t as [|[k v] t IH]; simpl; [discriminate|].
  destruct (state_eqb k s1) eqn:E1, (state_eqb k s2) eqn:E2; simpl;
    rewrite ?E1, ?E2; intro H.
  - rewrite state_eqb_sym in E1.
    rewrite (state_eqb_trans _ _ _ E1 E2) in N. discriminate.
  - reflexivity.
  - reflexivity.
  - rewrite (IH H). reflexivity.
Qed.

(** Updates of two different states are independent: when at least one of
    them already has a row, performing the two [update_q] calls in either
    order raises nothing and leaves the same table. *)
Theorem update_q_commutes (cfg : Config) (s1 s2 : State) (a1 a2 : Action)
    (r1 r2 : float) (w : World) :
  table_complete (q_table w) = true ->
  state_ok s1 = true -> state_ok s2 = true ->
  state_eqb s1 s2 = false ->
  PyDict.contains state_eqb s1 (q_table w)
    || PyDict.contains state_eqb s2 (q_table w) = true ->
  exists (w12 w21 : World),
    (update_q cfg s1 a1 r1 ;; update_q cfg s2 a2 r2) w = (Ok tt, w12) /\
    (update_q cfg s2 a2 r2 ;; update_q cfg s1 a1 r1) w = (Ok tt, w21) /\
    q_table w12 = q_table w21.
Proof.
  intros C K1 K2 N P.
  assert (N' : state_eqb s2 s1 = false) by (rewrite state_eqb_sym; exact N).
  set (t := q_table w).
  exists {| q_table := updated_table cfg (updated_table cfg t s1 a1 r1) s2 a2 r2;
            gen := gen w |},
         {| q_table := updated_table cfg (updated_table cfg t s2 a2 r2) s1 a1 r1;
            gen := gen w |}.
  split; [|split].
  - unfold bind. rewrite (update_q_run cfg s1 a1 r1 w C K1).
    rewrite update_q_run; [reflexivity | apply updated_table_complete, C
                                        | exact K2].
  - unfold bind. rewrite (update_q_run cfg s2 a2 r2 w C K2).
    rewrite update_q_run; [reflexivity | apply updated_table_complete, C
                                        | exact K1].
  - simpl. unfold updated_table at 1 3.
    assert (R2 : row_of (updated_table cfg t s1 a1 r1) s2 = row_of t s2).
    { unfold row_of. rewrite (updated_table_get_other _ _ _ _ _ _ N).
      reflexivity. }
    assert (R1 : row_of (updated_table cfg t s2 a2 r2) s1 = row_of t s1).
    { unfold row_of. rewrite (updated_table_get_other _ _ _ _ _ _ N').
      reflexivity. }
    rewrite R1, R2. unfold updated_table.
    symmetry. apply state_set_comm; assumption.
Qed.

Lemma update_q_commutes_witness :
  exists (w12 w21 : World),
    (update_q default_config example_state Buy (literal 137 4) ;;
     update_q default_config (literal 1 1, zero) Sell (literal 5 2))
      example_world = (Ok tt, w12) /\
    (update_q default_config (literal 1 1, zero) Sell (literal 5 2) ;;
     update_q default_config example_state Buy (literal 137 4))
      example_world = (Ok tt, w21) /\
    q_table w12 = q_table w21.
Proof.
  exact (update_q_commutes default_config example_state (literal 1 1, zero)
           Buy Sell (literal 137 4) (literal 5 2) example_world
           eq_refl eq_refl eq_refl eq_refl eq_refl).
Defined.

(** ** Estimates that are not a number *)

Lemma td_update_nan_old (cfg : Config) (r future : float) :
  td_update cfg S754_nan r future = S754_nan.
Proof. reflexivity. Qed.

Lemma td_update_nan_reward (cfg : Config) (old future : float) :
  td_update cfg old S754_nan future = S754_nan.
Proof.
  unfold td_update, fadd, fsub, fmul. simpl.
  destruct (alpha cfg), old; reflexivity.
Qed.

Lemma nan_step (cfg : Config) (t : Table) (s1 : State) (a1 : Action)
    (r1 : float) (s : State) (a : Action) :
  state_ok s1 = true ->
  table_value t s a = Some S754_nan ->
  table_value (updated_table cfg t s1 a1 r1) s a = Some S754_nan.
Proof.
  intros K TV. unfold table_value in *.
  destruct (state_eqb s1 s) eqn:E.
  - rewrite <- (get_congr state_eqb state_eqb_sym state_eqb_trans s1 s _ E) in TV.
    rewrite <- (get_congr state_eqb state_eqb_sym state_eqb_trans s1 s _ E).
    rewrite (updated_table_get_same _ _ _ _ _ K).
    destruct (PyDict.get state_eqb s1 t) as [row|] eqn:G; [|discriminate].
    assert (RO : row_of t s1 = row) by (unfold row_of; rewrite G; reflexivity).
    rewrite RO.
    destruct (action_eqb a1 a) eqn:EA.
    + apply action_eqb_eq in EA. subst a.
      rewrite updated_row_get_same. unfold row_value. rewrite TV.
      reflexivity.
    + rewrite updated_row_get_other; [exact TV|].
      intros ->. rewrite action_eqb_refl in EA. discriminate.
  - rewrite (updated_table_get_other _ _ _ _ _ _ E). exact TV.
Qed.

Lemma update_all_ok_run (cfg : Config) (calls : list (State * Action * float)) :
  forall w : World,
    table_complete (q_table w) = true ->
    calls_ok calls = true ->
    exists w' : World,
      update_all cfg calls w = (Ok tt, w') /\
      q_table w' = table_after cfg (q_table w) calls /\
      table_complete (q_table w') = true.
Proof.
  induction calls as [|[[s a] r] rest IH]; intros w C F.
  - exists w. repeat split. exact C.
  - simpl in F. apply andb_true_iff in F. destruct F as [K F].
    simpl. unfold bind. rewrite (update_q_run cfg s a r w C K).
    destruct (IH {| q_table := updated_table cfg (q_table w) s a r;
                    gen := gen w |}
                 (updated_table_complete cfg _ s a r C) F)
      as (w' & R & T & C').
    exists w'. split; [exact R|]. split; [exact T | exact C'].
Qed.

(** A reward that is not a number poisons the estimate it updates, and a
    poisoned estimate never recovers: on keys without NaN, [update_q] with
    a NaN reward stores NaN, and an entry that holds NaN still holds NaN
    after any sequence of further [update_q] calls on such keys, whatever
    their actions and rewards. *)
Theorem nan_estimate_is_absorbing (cfg : Config) (s : State) (a : Action)
    (calls : list (State * Action * float)) (w : World) :
  table_complete (q_table w) = true ->
  state_ok s = true ->
  calls_ok calls = true ->
  exists (w1 w2 : World),
    update_q cfg s a S754_nan w = (Ok tt, w1) /\
    table_value (q_table w1) s a = Some S754_nan /\
    update_all cfg calls w1 = (Ok tt, w2) /\
    table_value (q_table w2) s a = Some S754_nan.
Proof.
  intros C K F.
  set (w1 := {| q_table := updated_table cfg (q_table w) s a S754_nan;
                gen := gen w |}).
  assert (C1 : table_complete (q_table w1) = true)
    by (apply updated_table_complete, C).
  assert (TV : table_value (q_table w1) s a = Some S754_nan).
  { simpl. unfold table_value.
    rewrite (updated_table_get_same _ _ _ _ _ K), updated_row_get_same.
    rewrite td_update_nan_reward. reflexivity. }
  destruct (update_all_ok_run cfg calls w1 C1 F) as (w2 & R & T & _).
  exists w1, w2.
  split; [apply update_q_run; assumption|]. split; [exact TV|].
  split; [exact R|]. rewrite T. clear R T w2.
  generalize dependent (q_table w1). clear w1.
  induction calls as [|[[s1 a1] r1] rest IH]; intros t C1 TV; [exact TV|].
  simpl in F. apply andb_true_iff in F. destruct F as [K1 F].
  simpl. apply (IH F).
  - apply updated_table_complete, C1.
  - apply nan_step; assumption.
Qed.

Lemma nan_estimate_is_absorbing_witness :
  exists (w1 w2 : World),
    update_q default_config example_state Sell S754_nan example_world
      = (Ok tt, w1) /\
    update_all default_config
      [(example_state, Sell, literal 5 1); (example_state, Buy, literal 5 1)]
      w1 = (Ok tt, w2) /\
    table_value (q_table w2) example_state Sell = Some S754_nan.
Proof.
  destruct (nan_estimate_is_absorbing default_config example_state Sell
              [(example_state, Sell, literal 5 1);
               (example_state, Buy, literal 5 1)]
              example_world eq_refl eq_refl eq_refl)
    as (w1 & w2 & R1 & _ & R2 & TV).
  exists w1, w2. split; [exact R1|]. split; [exact R2 | exact TV].
Defined.

(** What the greedy choice does with such an estimate: a NaN under Buy
    locks the choice on Buy, whatever Sell and Hold hold, and a NaN under
    Sell or Hold is never chosen (every comparison with NaN is false, so
    NaN is never "greater" and nothing is greater than it). *)
Theorem nan_estimate_greedy (cfg : Config) (s : State) (w : World) (row : Row) :
  table_complete (q_table w) = true ->
  PyDict.get state_eqb s (q_table w) = Some row ->
  flt (draw w) (epsilon cfg) = false ->
  exists a : Action,
    choose_action cfg s w = (Ok a, advance w) /\
    (PyDict.get action_eqb Buy row = Some S754_nan -> a = Buy) /\
    (a <> Buy -> PyDict.get action_eqb a row <> Some S754_nan).
Proof.
  intros C G E.
  pose proof (table_complete_get _ _ _ C G) as RC.
  destruct (row_complete_shape _ RC) as (b & sl & h & ->).
  rewrite (choose_action_exploit cfg s w _ E G), best_action_complete.
  unfold fgt. fold flt.
  destruct (flt b sl) eqn:E1;
    [destruct (flt sl h) eqn:E2 | destruct (flt b h) eqn:E2];
    eexists; (split; [reflexivity|]); simpl; split;
    try (intro B; injection B as ->; discriminate);
    try reflexivity; try (intros N; congruence).
  all: intros _ B; injection B as ->.
  - rewrite flt_nan_r in E2. discriminate.
  - rewrite flt_nan_r in E1. discriminate.
  - rewrite flt_nan_r in E2. discriminate.
Qed.

Lemma nan_estimate_greedy_witness :
  exists a : Action,
    choose_action greedy_config example_state poisoned_world
      = (Ok a, advance poisoned_world) /\
    a = Buy.
Proof.
  destruct (nan_estimate_greedy greedy_config example_state poisoned_world
              [(Buy, S754_nan); (Sell, literal 5 1); (Hold, literal 25 2)]
              eq_refl eq_refl eq_refl) as (a & R & B & _).
  exists a. split; [exact R | exact (B eq_refl)].
Defined.
